(** * VirtualProctor: pose records and the cheating decision pipeline

    A shallow embedding of [utils.py] and [cheatdetection.py].

    Numbers.  The Python code works on NumPy floats.  Every finite float
    is a rational number, so finite values are modelled as [Q] with exact
    arithmetic; comparisons of the source ([==], [>=], [>]) become the
    decidable comparisons of [Q], and sums, products and quotients are
    taken without rounding.  The only non-finite value the code can
    create by itself is the NaN that [np.average] returns on an empty
    list; it is kept as a constructor of [pyfloat].

    Failures.  A Python exception is a value [Raise e] of [Result]. *)

From Stdlib Require Import String.
From Stdlib Require Import ZArith QArith Qminmax Qround List Bool Lia Lqa.
From Stdlib Require Import Permutation.
Import ListNotations.

Open Scope Z_scope.

(** ** Exceptions and fallible results *)

Inductive exn : Type :=
| ValueError
| IndexError
| ExternalError (what : string).

Inductive Result (A : Type) : Type :=
| Ok (a : A)
| Raise (e : exn).

Arguments Ok {A} a.
Arguments Raise {A} e.

Definition rbind {A B : Type} (r : Result A) (k : A -> Result B) : Result B :=
  match r with
  | Ok a => k a
  | Raise e => Raise e
  end.

Declare Scope result_scope.
Delimit Scope result_scope with result.
Notation "x <- r ;; k" := (rbind r (fun x => k))
  (at level 61, r at next level, right associativity) : result_scope.

(** ** Python and NumPy primitives *)

(** [int(q)] on a float: truncation toward zero. *)
Definition int (q : Q) : Z := Z.quot (Qnum q) (Zpos (Qden q)).

(** A float that may be NaN. *)
Inductive pyfloat : Type :=
| Finite (q : Q)
| NaN.

(** The comparisons [a > b] and [a >= b] of two finite floats. *)
Definition Qgtb (a b : Q) : bool := negb (Qle_bool a b).
Definition Qgeb (a b : Q) : bool := Qle_bool b a.

(** [np.amin] and [np.amax] of a 1-d array: ValueError on a zero-size array. *)
Definition np_amin (a : list Q) : Result Q :=
  match a with
  | [] => Raise ValueError
  | v :: rest => Ok (fold_left Qmin rest v)
  end.

Definition np_amax (a : list Q) : Result Q :=
  match a with
  | [] => Raise ValueError
  | v :: rest => Ok (fold_left Qmax rest v)
  end.

Definition Qsum (a : list Q) : Q := fold_left Qplus a 0%Q.

(** [np.average] without weights is the mean: sum over count, and NaN
    (with a warning, no exception) on an empty sequence. *)
Definition np_average (a : list Q) : pyfloat :=
  match a with
  | [] => NaN
  | _ :: _ => Finite (Qsum a / inject_Z (Z.of_nat (List.length a)))%Q
  end.

(** ** utils.py: the data model *)

Inductive BodyPart : Type :=
| NOSE | LEFT_EYE | RIGHT_EYE | LEFT_EAR | RIGHT_EAR
| LEFT_SHOULDER | RIGHT_SHOULDER | LEFT_ELBOW | RIGHT_ELBOW
| LEFT_WRIST | RIGHT_WRIST | LEFT_HIP | RIGHT_HIP
| LEFT_KNEE | RIGHT_KNEE | LEFT_ANKLE | RIGHT_ANKLE.

(** The [.value] of a member. *)
Definition BodyPart_value (bp : BodyPart) : Z :=
  match bp with
  | NOSE => 0 | LEFT_EYE => 1 | RIGHT_EYE => 2 | LEFT_EAR => 3
  | RIGHT_EAR => 4 | LEFT_SHOULDER => 5 | RIGHT_SHOULDER => 6
  | LEFT_ELBOW => 7 | RIGHT_ELBOW => 8 | LEFT_WRIST => 9
  | RIGHT_WRIST => 10 | LEFT_HIP => 11 | RIGHT_HIP => 12
  | LEFT_KNEE => 13 | RIGHT_KNEE => 14 | LEFT_ANKLE => 15
  | RIGHT_ANKLE => 16
  end.

(** Iterating over the class ([for bp in BodyPart]): definition order. *)
Definition BodyPart_members : list BodyPart :=
  [NOSE; LEFT_EYE; RIGHT_EYE; LEFT_EAR; RIGHT_EAR; LEFT_SHOULDER;
   RIGHT_SHOULDER; LEFT_ELBOW; RIGHT_ELBOW; LEFT_WRIST; RIGHT_WRIST;
   LEFT_HIP; RIGHT_HIP; LEFT_KNEE; RIGHT_KNEE; LEFT_ANKLE; RIGHT_ANKLE].

(** The call [BodyPart(i)]: lookup by value, ValueError when no member
    has that value. *)
Definition BodyPart_call (i : Z) : Result BodyPart :=
  match find (fun bp => BodyPart_value bp =? i) BodyPart_members with
  | Some bp => Ok bp
  | None => Raise ValueError
  end.

Record Point : Type := mkPoint { x : Q; y : Q }.

Record Rectangle : Type :=
  mkRectangle { start_point : Point; end_point : Point }.

Record KeyPoint : Type :=
  mkKeyPoint { body_part : BodyPart; coordinate : Point; score : Q }.

(** The field [score] of [Person] is [person_score] here, the name
    [score] being taken by [KeyPoint]. *)
Record Person : Type :=
  mkPerson { keypoints : list KeyPoint;
             bounding_box : Rectangle;
             person_score : pyfloat;
             id : option Z }.

(** ** utils.py: person_from_keypoints_with_scores *)

(** A [n, 3] array is a list of rows [(x, y, score)]; [a[:, j]] is a column. *)
Definition Row : Type := (Q * Q * Q)%type.

Definition column0 (a : list Row) : list Q := map (fun r => fst (fst r)) a.
Definition column1 (a : list Row) : list Q := map (fun r => snd (fst r)) a.
Definition column2 (a : list Row) : list Q := map (fun r => snd r) a.

(** The loop [for i in range(scores.shape[0]): keypoints.append(...)],
    threaded through the list being appended to. *)
Fixpoint append_keypoints (range : list nat) (kpts_x kpts_y scores : list Q)
    (keypoints : list KeyPoint) : Result (list KeyPoint) :=
  match range with
  | [] => Ok keypoints
  | i :: range' =>
      (bp <- BodyPart_call (Z.of_nat i) ;;
       append_keypoints range' kpts_x kpts_y scores
         (keypoints ++
            [mkKeyPoint bp
               (mkPoint (inject_Z (int (nth i kpts_x 0%Q)))
                        (inject_Z (int (nth i kpts_y 0%Q))))
               (nth i scores 0%Q)]))%result
  end.

Definition person_from_keypoints_with_scores
    (keypoints_with_scores : list Row)
    (image_height image_width : Q)
    (keypoint_score_threshold : Q) : Result Person :=
  let kpts_x := column0 keypoints_with_scores in
  let kpts_y := column1 keypoints_with_scores in
  let scores := column2 keypoints_with_scores in
  (keypoints <- append_keypoints (seq 0 (List.length scores)) kpts_x kpts_y scores [] ;;
   min_x <- np_amin kpts_x ;;
   min_y <- np_amin kpts_y ;;
   let start_point := mkPoint (inject_Z (int min_x)) (inject_Z (int min_y)) in
   max_x <- np_amax kpts_x ;;
   max_y <- np_amax kpts_y ;;
   let end_point := mkPoint (inject_Z (int max_x)) (inject_Z (int max_y)) in
   let bounding_box := mkRectangle start_point end_point in
   let scores_above_threshold :=
     filter (fun x => Qgtb x keypoint_score_threshold) scores in
   let person_score := np_average scores_above_threshold in
   Ok (mkPerson keypoints bounding_box person_score None))%result.

(** The default value of [keypoint_score_threshold]. *)
Definition default_keypoint_score_threshold : Q := 1 # 10.

(** ** cheatdetection.py: pure steps of the loop body *)

Definition BodyPart_name (bp : BodyPart) : string :=
  match bp with
  | NOSE => "NOSE" | LEFT_EYE => "LEFT_EYE" | RIGHT_EYE => "RIGHT_EYE"
  | LEFT_EAR => "LEFT_EAR" | RIGHT_EAR => "RIGHT_EAR"
  | LEFT_SHOULDER => "LEFT_SHOULDER" | RIGHT_SHOULDER => "RIGHT_SHOULDER"
  | LEFT_ELBOW => "LEFT_ELBOW" | RIGHT_ELBOW => "RIGHT_ELBOW"
  | LEFT_WRIST => "LEFT_WRIST" | RIGHT_WRIST => "RIGHT_WRIST"
  | LEFT_HIP => "LEFT_HIP" | RIGHT_HIP => "RIGHT_HIP"
  | LEFT_KNEE => "LEFT_KNEE" | RIGHT_KNEE => "RIGHT_KNEE"
  | LEFT_ANKLE => "LEFT_ANKLE" | RIGHT_ANKLE => "RIGHT_ANKLE"
  end%string.

(** [[f'{bp.name}_{coord}' for bp in BodyPart for coord in ['x','y','score']]] *)
Definition column_names : list string :=
  flat_map
    (fun bp => map (fun coord => (BodyPart_name bp ++ "_" ++ coord)%string)
                   ["x"; "y"; "score"]%string)
    BodyPart_members.

(** [np.array([[kp.coordinate.x, kp.coordinate.y, kp.score] for kp in ...])] *)
Definition keypoints_array (person : Person) : list (list Q) :=
  map (fun kp => [x (coordinate kp); y (coordinate kp); score kp])
      (keypoints person).

(** [pd.DataFrame(a.flatten()).T] is one row holding the flattened array;
    assigning [.columns] raises ValueError unless the row has as many
    entries as there are names. *)
Definition keypoints_dataframe (person : Person) : Result (list Q) :=
  let row := concat (keypoints_array person) in
  if Nat.eqb (List.length row) (List.length column_names)
  then Ok row
  else Raise ValueError.

(** [np.squeeze(a, 0)]: ValueError unless axis 0 has size one. *)
Definition np_squeeze0 (a : list (list Q)) : Result (list Q) :=
  match a with
  | [row] => Ok row
  | _ => Raise ValueError
  end.

(** [a[i]] on a 1-d array. *)
Definition getitem (a : list Q) (i : nat) : Result Q :=
  match nth_error a i with
  | Some v => Ok v
  | None => Raise IndexError
  end.

(** Lines 45-51: the decision rule, on the squeezed prediction. *)
Definition predicted_class (prediction : list Q) : Result Z :=
  (p0 <- getitem prediction 0 ;;
   m <- np_amax prediction ;;
   if Qeq_bool p0 m then
     p0 <- getitem prediction 0 ;;
     p1 <- getitem prediction 1 ;;
     if Qgeb p0 (10000 * p1)%Q then Ok 0 else Ok 1
   else Ok 2)%result.

(** The three outcomes the class numbers stand for. *)
Inductive Decision : Type := CHEATING | NOT_CHEATING | UNCERTAIN.

Definition decision_of_class (c : Z) : option Decision :=
  if c =? 0 then Some CHEATING
  else if c =? 1 then Some NOT_CHEATING
  else if c =? 2 then Some UNCERTAIN
  else None.

Definition decide (prediction : list Q) : Result Decision :=
  (c <- predicted_class prediction ;;
   match decision_of_class c with
   | Some d => Ok d
   | None => Raise ValueError
   end)%result.

(** [(int(p.x), int(p.y))] *)
Definition int_point (p : Point) : Z * Z := (int (x p), int (y p)).

(** ** cheatdetection.py: the effects

    [detect_cheating] calls four collaborators: the pose detector,
    [landmarks_to_embedding], the classifier's [predict] and
    [cv2.rectangle].  Each call is recorded; [cv2.rectangle] also writes
    into the frame buffer, which the caller's [image] and the returned
    [image] both refer to. *)

Inductive call : Type :=
| Call_detect
| Call_landmarks_to_embedding (landmarks : list Q)
| Call_predict (embedding : list Q)
| Call_rectangle (pt1 pt2 : Z * Z) (color : Z * Z * Z) (thickness : Z).

Definition is_rectangle (c : call) : bool :=
  match c with
  | Call_rectangle _ _ _ _ => true
  | _ => false
  end.

Definition is_classifier_work (c : call) : bool :=
  match c with
  | Call_landmarks_to_embedding _ | Call_predict _ => true
  | _ => false
  end.

(** The color passed to [cv2.rectangle], in OpenCV's blue-green-red order. *)
Definition red : Z * Z * Z := (0, 0, 255).

Section CheatDetection.

(** Contents of a frame buffer. *)
Variable Image : Type.

(** The collaborators, as the functions of their arguments they are. *)
Variable detector_detect : Image -> Result (list Person).
Variable landmarks_to_embedding : list Q -> Result (list Q).
Variable model_predict : list Q -> Result (list (list Q)).
Variable cv2_rectangle :
  Image -> Z * Z -> Z * Z -> Z * Z * Z -> Z -> Image.

Record World : Type :=
  mkWorld { pixels : Image; calls : list call }.

Definition record (c : call) (w : World) : World :=
  mkWorld (pixels w) (calls w ++ [c]).

(** Computations that read and write the world and may raise; what was
    written before an exception stays written. *)
Definition M (A : Type) : Type := World -> Result A * World.

Definition ret {A : Type} (a : A) : M A := fun w => (Ok a, w).

Definition bind {A B : Type} (m : M A) (k : A -> M B) : M B :=
  fun w =>
    match m w with
    | (Ok a, w') => k a w'
    | (Raise e, w') => (Raise e, w')
    end.

Definition lift {A : Type} (r : Result A) : M A := fun w => (r, w).

Definition current_image : M Image := fun w => (Ok (pixels w), w).

Definition detect : M (list Person) :=
  fun w => (detector_detect (pixels w), record Call_detect w).

Definition embed (landmarks : list Q) : M (list Q) :=
  fun w => (landmarks_to_embedding landmarks,
            record (Call_landmarks_to_embedding landmarks) w).

Definition predict (embedding : list Q) : M (list (list Q)) :=
  fun w => (model_predict embedding, record (Call_predict embedding) w).

Definition rectangle (pt1 pt2 : Z * Z) (color : Z * Z * Z) (thickness : Z)
    : M unit :=
  fun w => (Ok tt,
            mkWorld (cv2_rectangle (pixels w) pt1 pt2 color thickness)
                    (calls w ++ [Call_rectangle pt1 pt2 color thickness])).

Notation "x <- m ;; k" := (bind m (fun x => k))
  (at level 61, m at next level, right associativity).
Notation "m ;;; k" := (bind m (fun _ => k))
  (at level 61, right associativity).

(** The body of [for person in persons], lines 35-58. *)
Definition process_person (person : Person) (cheating_detected : bool)
    : M bool :=
  keypoints_dataframe <- lift (keypoints_dataframe person) ;;
  embedding <- embed keypoints_dataframe ;;
  prediction <- predict embedding ;;
  prediction <- lift (np_squeeze0 prediction) ;;
  predicted_class <- lift (predicted_class prediction) ;;
  if predicted_class =? 0 then
    let start_point := int_point (start_point (bounding_box person)) in
    let end_point := int_point (end_point (bounding_box person)) in
    rectangle start_point end_point red 2 ;;;
    ret true
  else ret cheating_detected.

Fixpoint for_person_in (persons : list Person) (cheating_detected : bool)
    : M bool :=
  match persons with
  | [] => ret cheating_detected
  | person :: rest =>
      cheating_detected <- process_person person cheating_detected ;;
      for_person_in rest cheating_detected
  end.

(** [CheatDetection.detect_cheating(image)]; the world's [pixels] are
    the buffer behind [image]. *)
Definition detect_cheating : M (Image * bool) :=
  persons <- detect ;;
  let cheating_detected := false in
  match persons with
  | [] => image <- current_image ;; ret (image, cheating_detected)
  | _ :: _ =>
      cheating_detected <- for_person_in persons cheating_detected ;;
      image <- current_image ;;
      ret (image, cheating_detected)
  end.

(** What the loop body computes for one person, without the effects:
    the class number, or the exception that ends the call. *)
Definition person_class (person : Person) : Result Z :=
  (df <- keypoints_dataframe person ;;
   embedding <- landmarks_to_embedding df ;;
   prediction <- model_predict embedding ;;
   prediction <- np_squeeze0 prediction ;;
   predicted_class prediction)%result.

Definition is_cheating (person : Person) : bool :=
  match person_class person with
  | Ok c => c =? 0
  | Raise _ => false
  end.

Definition completes (person : Person) : bool :=
  match person_class person with
  | Ok _ => true
  | Raise _ => false
  end.

(** The [cv2.rectangle] call made for a person classified 0. *)
Definition rectangle_call (person : Person) : call :=
  Call_rectangle (int_point (start_point (bounding_box person)))
                 (int_point (end_point (bounding_box person)))
                 red 2.

Definition draw (image : Image) (person : Person) : Image :=
  cv2_rectangle image
                (int_point (start_point (bounding_box person)))
                (int_point (end_point (bounding_box person)))
                red 2.

(** The decision the loop body reaches for one person. *)
Definition person_decision (person : Person) : Result Decision :=
  (df <- keypoints_dataframe person ;;
   embedding <- landmarks_to_embedding df ;;
   prediction <- model_predict embedding ;;
   prediction <- np_squeeze0 prediction ;;
   decide prediction)%result.

(** The collaborator calls the body makes before deciding. *)
Definition classifier_calls (person : Person) : list call :=
  match keypoints_dataframe person with
  | Raise _ => []
  | Ok df =>
      Call_landmarks_to_embedding df ::
      match landmarks_to_embedding df with
      | Raise _ => []
      | Ok embedding => [Call_predict embedding]
      end
  end.

(** Summary of one pass of the body: calls made, pixels left, result. *)
Definition body_calls (person : Person) : list call :=
  classifier_calls person ++
  (if is_cheating person then [rectangle_call person] else []).

Definition body_pixels (image : Image) (person : Person) : Image :=
  if is_cheating person then draw image person else image.

Definition body_result (person : Person) (cheating_detected : bool)
    : Result bool :=
  match person_class person with
  | Ok c => Ok (if c =? 0 then true else cheating_detected)
  | Raise e => Raise e
  end.

(** Summary of the whole loop; it stops at the first exception. *)
Fixpoint loop_calls (persons : list Person) : list call :=
  match persons with
  | [] => []
  | person :: rest =>
      body_calls person ++
      (if completes person then loop_calls rest else [])
  end.

Fixpoint loop_pixels (persons : list Person) (image : Image) : Image :=
  match persons with
  | [] => image
  | person :: rest =>
      if completes person
      then loop_pixels rest (body_pixels image person)
      else body_pixels image person
  end.

Fixpoint loop_result (persons : list Person) (cheating_detected : bool)
    : Result bool :=
  match persons with
  | [] => Ok cheating_detected
  | person :: rest =>
      match body_result person cheating_detected with
      | Ok flag => loop_result rest flag
      | Raise e => Raise e
      end
  end.

(** The claim that a failing person is skipped and the rest of the
    frame is processed: the call returns, its flag is the OR over the
    persons that could be classified, and each of those classified
    CHEATING has its rectangle drawn. *)
Definition failures_isolated (w : World) : Prop :=
  forall persons,
    detector_detect (pixels w) = Ok persons ->
    exists image flag w' new,
      detect_cheating w = (Ok (image, flag), w') /\
      calls w' = calls w ++ new /\
      (flag = true <->
       Exists (fun p => person_decision p = Ok CHEATING) persons) /\
      filter is_rectangle new
      = map rectangle_call (filter is_cheating persons).

End CheatDetection.

Arguments pixels {Image} w.
Arguments calls {Image} w.
Arguments mkWorld {Image} pixels calls.
Arguments record {Image} c w.
Arguments detect_cheating {Image}.
Arguments process_person {Image}.
Arguments for_person_in {Image}.
Arguments failures_isolated {Image}.
Arguments draw {Image}.
Arguments body_pixels {Image}.
Arguments loop_pixels {Image}.

(** ** Predicates of the statements *)

(** A point lies in a rectangle, borders included. *)
Definition inside (r : Rectangle) (p : Point) : Prop :=
  (x (start_point r) <= x p <= x (end_point r))%Q /\
  (y (start_point r) <= y p <= y (end_point r))%Q.

(** The [(x, y)] pair of an input row, and the same pair after [int]. *)
Definition row_xy (r : Row) : Q * Q := (fst (fst r), snd (fst r)).
Definition row_xy_int (r : Row) : Q * Q :=
  (inject_Z (int (fst (fst r))), inject_Z (int (snd (fst r)))).
Definition point_xy (p : Point) : Q * Q := (x p, y p).

(** The key point appended at index [i] when [BodyPart(i)] succeeds. *)
Definition keypoint_at (kpts_x kpts_y scores : list Q) (i : nat) : KeyPoint :=
  mkKeyPoint (nth i BodyPart_members NOSE)
             (mkPoint (inject_Z (int (nth i kpts_x 0%Q)))
                      (inject_Z (int (nth i kpts_y 0%Q))))
             (nth i scores 0%Q).

(** The claim that coordinates pass through unchanged. *)
Definition coordinates_as_provided
    (kws : list Row) (h w thr : Q) : Prop :=
  forall person,
    person_from_keypoints_with_scores kws h w thr = Ok person ->
    Forall2 (fun kp r => (x (coordinate kp) == fst (fst r))%Q /\
                         (y (coordinate kp) == snd (fst r))%Q)
            (keypoints person) kws.




(** What the data model asks of a [Person]: seventeen key points in
    enumeration order, an ordered box, every key point in the box. *)
Definition keypoint_record_invariant (person : Person) : Prop :=
  List.length (keypoints person) = 17%nat /\
  map body_part (keypoints person) = BodyPart_members /\
  map (fun kp => BodyPart_value (body_part kp)) (keypoints person)
  = map Z.of_nat (seq 0 17) /\
  (x (start_point (bounding_box person))
   <= x (end_point (bounding_box person)))%Q /\
  (y (start_point (bounding_box person))
   <= y (end_point (bounding_box person)))%Q /\
  Forall (fun kp => inside (bounding_box person) (coordinate kp))
         (keypoints person).

(** A float that holds a whole number. *)
Definition whole (q : Q) : Prop := exists z : Z, (q == inject_Z z)%Q.


(** The calls a run added to the record. *)
Definition new_calls {Image : Type} (before after : World Image) : list call :=
  skipn (List.length (calls before)) (calls after).

(** ** A concrete pose array, shape [17, 3] *)

Definition sample_rows : list Row :=
  [ (201 # 2, 40, 9 # 10); (105, 77 # 2, 8 # 10); (95, 38, 8 # 10);
    (110, 41, 1 # 20); (90, 41, 7 # 10); (120, 60, 9 # 10);
    (80, 60, 9 # 10); (251 # 2, 90, 6 # 10); (75, 90, 6 # 10);
    (128, 115, 1 # 10); (72, 115, 5 # 10); (115, 120, 8 # 10);
    (85, 120, 8 # 10); (116, 160, 7 # 10); (84, 160, 7 # 10);
    (117, 399 # 2, 3 # 100); (83, 200, 4 # 10) ]%Q.

(** ** Concrete collaborators used in the examples *)

(** A frame that remembers the rectangles drawn on it. *)
Definition Canvas : Type := list ((Z * Z) * (Z * Z) * (Z * Z * Z) * Z).

Definition canvas_rectangle (image : Canvas) (pt1 pt2 : Z * Z)
    (color : Z * Z * Z) (thickness : Z) : Canvas :=
  image ++ [(pt1, pt2, color, thickness)].

(** An embedding that fails on a pose whose left shoulder and left hip
    coincide, and passes the landmarks through otherwise. *)
Definition demo_embedding (landmarks : list Q) : Result (list Q) :=
  if Qeq_bool (nth 15 landmarks 0%Q) (nth 33 landmarks 0%Q)
     && Qeq_bool (nth 16 landmarks 0%Q) (nth 34 landmarks 0%Q)
  then Raise (ExternalError "degenerate pose")
  else Ok landmarks.

(** A classifier that looks at the nose only. *)
Definition demo_predict (embedding : list Q) : Result (list (list Q)) :=
  if Qle_bool (nth 0 embedding 0%Q) 100
  then Ok [[9999 # 10000; 5 # 100000; 5 # 100000]]%Q
  else if Qle_bool (nth 0 embedding 0%Q) 200
  then Ok [[6 # 10; 3 # 10; 1 # 10]]%Q
  else Ok [[3 # 10; 5 # 10; 2 # 10]]%Q.

Definition shift_rows (dx : Q) (rows : list Row) : list Row :=
  map (fun r => (fst (fst r) + dx, snd (fst r), snd r)%Q) rows.

Definition collapsed_rows : list Row :=
  map (fun r => (50, 50, snd r)%Q) sample_rows.

(** A person with no key points, standing for a failed construction. *)
Definition nobody : Person :=
  mkPerson [] (mkRectangle (mkPoint 0 0) (mkPoint 0 0)) NaN None.

Definition person_of (rows : list Row) : Person :=
  match person_from_keypoints_with_scores rows 480 640
          default_keypoint_score_threshold with
  | Ok person => person
  | Raise _ => nobody
  end.

(** One person per classifier answer, and one degenerate pose. *)
Definition cheater : Person := Eval vm_compute in person_of sample_rows.
Definition honest : Person :=
  Eval vm_compute in person_of (shift_rows 50 sample_rows).
Definition unclear : Person :=
  Eval vm_compute in person_of (shift_rows 150 sample_rows).
Definition collapsed : Person :=
  Eval vm_compute in person_of collapsed_rows.

Definition demo_world : World Canvas := mkWorld [] [].

Definition demo_detector (persons : list Person)
    : Canvas -> Result (list Person) :=
  fun _ => Ok persons.

Definition demo_run (persons : list Person)
    : World Canvas -> Result (Canvas * bool) * World Canvas :=
  detect_cheating (demo_detector persons) demo_embedding demo_predict
                  canvas_rectangle.

Definition demo_decision : Person -> Result Decision :=
  person_decision demo_embedding demo_predict.

Definition demo_cheating : Person -> bool :=
  is_cheating demo_embedding demo_predict.

(** ** Further predicates and inputs *)


(** The flat triple of one key point. *)
Definition keypoint_triple (kp : KeyPoint) : list Q :=
  [x (coordinate kp); y (coordinate kp); score kp].


(** Arrays of five and of eighteen rows. *)
Definition short_rows : list Row := firstn 5 sample_rows.
Definition long_rows : list Row := sample_rows ++ [(100, 210, 1 # 2)%Q].

Definition stub : Person := Eval vm_compute in person_of short_rows.

(** A detector that lists the same two persons in an order that depends
    on the frame. *)
Definition order_detector (image : Canvas) : Result (list Person) :=
  match image with
  | [] => Ok [honest; cheater]
  | _ :: _ => Ok [cheater; honest]
  end.

Definition marked_world : World Canvas :=
  mkWorld [((0, 0), (1, 1), red, 2)] [].

(** A detector that fails. *)
Definition failing_detector (image : Canvas) : Result (list Person) :=
  Raise (ExternalError "detector unavailable").

(** * Properties of utils.py *)

(** ** Truncation *)

Lemma int_nonneg (q : Q) : (0 <= q)%Q -> int q = Qfloor q.
Proof.
  destruct q as [n d]. unfold Qle, int, Qfloor. simpl. intros H.
  apply Z.quot_div_nonneg; lia.
Qed.

Lemma int_neg (q : Q) : (q < 0)%Q -> int q = Qceiling q.
Proof.
  destruct q as [n d]. unfold Qlt, int, Qceiling, Qfloor. simpl. intros H.
  assert (Hn : 0 <= - n) by lia.
  rewrite <- (Z.opp_involutive n) at 1.
  rewrite Z.quot_opp_l by lia.
  f_equal. apply Z.quot_div_nonneg; lia.
Qed.

Lemma int_le_mono (a b : Q) : (a <= b)%Q -> int a <= int b.
Proof.
  intros Hab.
  destruct (Qlt_le_dec a 0) as [Ha | Ha]; destruct (Qlt_le_dec b 0) as [Hb | Hb].
  - rewrite (int_neg a Ha), (int_neg b Hb). now apply Qceiling_resp_le.
  - rewrite (int_neg a Ha), (int_nonneg b Hb).
    apply Z.le_trans with 0.
    + change 0 with (Qceiling 0). apply Qceiling_resp_le. now apply Qlt_le_weak.
    + change 0 with (Qfloor 0). now apply Qfloor_resp_le.
  - exfalso. apply (Qlt_irrefl 0).
    apply Qle_lt_trans with a; [assumption|].
    now apply Qle_lt_trans with b.
  - rewrite (int_nonneg a Ha), (int_nonneg b Hb). now apply Qfloor_resp_le.
Qed.

Lemma int_inject_Z (z : Z) : int (inject_Z z) = z.
Proof. unfold int. simpl. apply Z.quot_1_r. Qed.

(** ** Minimum and maximum of a column *)

Lemma fold_Qmin_le (l : list Q) (v : Q) :
  (fold_left Qmin l v <= v)%Q /\
  Forall (fun a => fold_left Qmin l v <= a)%Q l.
Proof.
  revert v. induction l as [|a l IH]; intros v; simpl.
  - split; [apply Qle_refl | constructor].
  - destruct (IH (Qmin v a)) as [H1 H2]. split.
    + eapply Qle_trans; [exact H1 | apply Q.le_min_l].
    + constructor; [|exact H2].
      eapply Qle_trans; [exact H1 | apply Q.le_min_r].
Qed.

Lemma fold_Qmax_ge (l : list Q) (v : Q) :
  (v <= fold_left Qmax l v)%Q /\
  Forall (fun a => a <= fold_left Qmax l v)%Q l.
Proof.
  revert v. induction l as [|a l IH]; intros v; simpl.
  - split; [apply Qle_refl | constructor].
  - destruct (IH (Qmax v a)) as [H1 H2]. split.
    + eapply Qle_trans; [apply Q.le_max_l | exact H1].
    + constructor; [|exact H2].
      eapply Qle_trans; [apply Q.le_max_r | exact H1].
Qed.

Lemma np_amin_spec (a : list Q) :
  a <> [] ->
  exists m, np_amin a = Ok m /\ Forall (fun v => m <= v)%Q a.
Proof.
  destruct a as [|v rest]; [congruence|]. intros _.
  exists (fold_left Qmin rest v). split; [reflexivity|].
  destruct (fold_Qmin_le rest v) as [H1 H2]. now constructor.
Qed.

Lemma np_amax_spec (a : list Q) :
  a <> [] ->
  exists m, np_amax a = Ok m /\ Forall (fun v => v <= m)%Q a.
Proof.
  destruct a as [|v rest]; [congruence|]. intros _.
  exists (fold_left Qmax rest v). split; [reflexivity|].
  destruct (fold_Qmax_ge rest v) as [H1 H2]. now constructor.
Qed.

(** ** The key point loop *)

Lemma BodyPart_call_lt (i : nat) :
  (i < 17)%nat -> BodyPart_call (Z.of_nat i) = Ok (nth i BodyPart_members NOSE).
Proof.
  intros H. do 17 (destruct i as [|i]; [reflexivity|]). lia.
Qed.

Lemma BodyPart_call_ge (i : nat) :
  (17 <= i)%nat -> BodyPart_call (Z.of_nat i) = Raise ValueError.
Proof.
  intros H. unfold BodyPart_call, BodyPart_members.
  cbn [find BodyPart_value].
  repeat match goal with
         | |- context [?a =? ?b] =>
             let E := fresh in destruct (Z.eqb_spec a b) as [E|E]; [lia|]
         end.
  reflexivity.
Qed.

Lemma append_keypoints_seq (kx ky sc : list Q) (n s : nat) (acc : list KeyPoint) :
  (s + n <= 17)%nat ->
  append_keypoints (seq s n) kx ky sc acc
  = Ok (acc ++ map (keypoint_at kx ky sc) (seq s n)).
Proof.
  revert s acc. induction n as [|n IH]; intros s acc H; simpl.
  - now rewrite app_nil_r.
  - rewrite BodyPart_call_lt by lia. simpl.
    rewrite IH by lia. now rewrite <- app_assoc.
Qed.

Lemma append_keypoints_overflow (kx ky sc : list Q) (n s : nat)
    (acc : list KeyPoint) :
  (s <= 17 < s + n)%nat ->
  append_keypoints (seq s n) kx ky sc acc = Raise ValueError.
Proof.
  revert s acc. induction n as [|n IH]; intros s acc H; [lia|].
  cbn [seq append_keypoints].
  destruct (Nat.eq_dec s 17) as [->|Hs].
  - now rewrite BodyPart_call_ge by lia.
  - rewrite BodyPart_call_lt by lia. cbn [rbind]. apply IH. lia.
Qed.

(** Outside one to seventeen rows the function raises. *)
Lemma person_from_keypoints_raises (kws : list Row) (h w thr : Q) :
  (List.length kws = 0 \/ 17 < List.length kws)%nat ->
  person_from_keypoints_with_scores kws h w thr = Raise ValueError.
Proof.
  intros [H0 | H17].
  - destruct kws; [reflexivity | discriminate].
  - unfold person_from_keypoints_with_scores, column2.
    rewrite append_keypoints_overflow; [reflexivity|].
    rewrite length_map. unfold Row in *. lia.
Qed.

Lemma map_nth_seq {A B : Type} (g : A -> B) (l : list A) (d : A) :
  map (fun i => g (nth i l d)) (seq 0 (List.length l)) = map g l.
Proof.
  induction l as [|a l IH]; [reflexivity|].
  simpl. f_equal. rewrite <- seq_shift, map_map. exact IH.
Qed.

Lemma column_length (kws : list Row) :
  List.length (column0 kws) = List.length kws /\
  List.length (column1 kws) = List.length kws /\
  List.length (column2 kws) = List.length kws.
Proof. unfold column0, column1, column2. now rewrite !length_map. Qed.

(** On one to seventeen rows the function returns, and this is what. *)
Lemma person_from_keypoints_ok (kws : list Row) (h w thr : Q) :
  (1 <= List.length kws <= 17)%nat ->
  exists min_x min_y max_x max_y,
    Forall (fun v => min_x <= v <= max_x)%Q (column0 kws) /\
    Forall (fun v => min_y <= v <= max_y)%Q (column1 kws) /\
    person_from_keypoints_with_scores kws h w thr
    = Ok (mkPerson
            (map (keypoint_at (column0 kws) (column1 kws) (column2 kws))
                 (seq 0 (List.length kws)))
            (mkRectangle
               (mkPoint (inject_Z (int min_x)) (inject_Z (int min_y)))
               (mkPoint (inject_Z (int max_x)) (inject_Z (int max_y))))
            (np_average (filter (fun s => Qgtb s thr) (column2 kws)))
            None).
Proof.
  intros Hlen.
  destruct (column_length kws) as (L0 & L1 & L2).
  assert (N0 : column0 kws <> []) by (intros E; rewrite E in L0; simpl in L0; lia).
  assert (N1 : column1 kws <> []) by (intros E; rewrite E in L1; simpl in L1; lia).
  destruct (np_amin_spec _ N0) as (min_x & Emin_x & Bmin_x).
  destruct (np_amin_spec _ N1) as (min_y & Emin_y & Bmin_y).
  destruct (np_amax_spec _ N0) as (max_x & Emax_x & Bmax_x).
  destruct (np_amax_spec _ N1) as (max_y & Emax_y & Bmax_y).
  exists min_x, min_y, max_x, max_y.
  split; [apply Forall_and; assumption|].
  split; [apply Forall_and; assumption|].
  unfold person_from_keypoints_with_scores.
  rewrite append_keypoints_seq by (rewrite L2; lia).
  rewrite Emin_x, Emin_y, Emax_x, Emax_y. simpl. now rewrite L2.
Qed.

Lemma inject_int_le (a b : Q) :
  (a <= b)%Q -> (inject_Z (int a) <= inject_Z (int b))%Q.
Proof. intros H. rewrite <- Zle_Qle. now apply int_le_mono. Qed.

Lemma int_whole (q : Q) : whole q -> (inject_Z (int q) == q)%Q.
Proof.
  intros [z Hz]. 
  assert (E : int q = z).
  { apply Z.le_antisymm.
    - rewrite <- (int_inject_Z z). apply int_le_mono. rewrite Hz. apply Qle_refl.
    - rewrite <- (int_inject_Z z) at 1. apply int_le_mono. rewrite Hz. apply Qle_refl. }
  rewrite E. now symmetry.
Qed.

(** ** Claims about person_from_keypoints_with_scores *)

(** C5: on an array of shape [17, 3] the function returns a Person with
    exactly 17 key points in BodyPart order (values 0 to 16, each once),
    whose bounding box has its start point below its end point in both
    coordinates and contains the coordinate of every returned key point. *)
Theorem person_keypoints_ordered_and_boxed (kws : list Row) (h w thr : Q) :
  List.length kws = 17%nat ->
  exists person,
    person_from_keypoints_with_scores kws h w thr = Ok person /\
    keypoint_record_invariant person.
Proof.
  intros Hlen.
  destruct (person_from_keypoints_ok kws h w thr) as
    (min_x & min_y & max_x & max_y & Bx & By & E); [lia|].
  eexists. split; [exact E|].
  destruct (column_length kws) as (L0 & L1 & L2).
  unfold keypoint_record_invariant. cbn [keypoints bounding_box start_point end_point x y].
  rewrite Hlen.
  split; [now rewrite length_map, length_seq|].
  split; [now rewrite map_map|].
  split; [now rewrite map_map|].
  assert (Hin : forall (l : list Q) (i : nat),
             List.length l = 17%nat -> (i < 17)%nat -> In (nth i l 0%Q) l).
  { intros l i Hl Hi. apply nth_In. lia. }
  rewrite Forall_forall in Bx, By.
  split.
  { destruct (Bx _ (Hin _ 0%nat (eq_trans L0 Hlen) ltac:(lia))) as [H1 H2].
    apply inject_int_le. eapply Qle_trans; eassumption. }
  split.
  { destruct (By _ (Hin _ 0%nat (eq_trans L1 Hlen) ltac:(lia))) as [H1 H2].
    apply inject_int_le. eapply Qle_trans; eassumption. }
  apply Forall_forall. intros kp Hkp.
  apply in_map_iff in Hkp. destruct Hkp as (i & <- & Hi).
  apply in_seq in Hi.
  destruct (Bx _ (Hin _ i (eq_trans L0 Hlen) ltac:(lia))) as [X1 X2].
  destruct (By _ (Hin _ i (eq_trans L1 Hlen) ltac:(lia))) as [Y1 Y2].
  unfold inside, keypoint_at.
  cbn [coordinate bounding_box start_point end_point x y].
  repeat split; now apply inject_int_le.
Qed.

Lemma person_keypoints_ordered_and_boxed_witness :
  List.length sample_rows = 17%nat /\
  exists person,
    person_from_keypoints_with_scores sample_rows 480 640
      default_keypoint_score_threshold = Ok person /\
    keypoint_record_invariant person.
Proof.
  split; [reflexivity|].
  apply (person_keypoints_ordered_and_boxed sample_rows 480 640
           default_keypoint_score_threshold).
  reflexivity.
Defined.

(** ** The person score *)






(** ** Coordinates *)

Lemma Forall2_of_map_eq {A B C : Type} (f : A -> C) (g : B -> C)
    (l1 : list A) (l2 : list B) :
  map f l1 = map g l2 -> Forall2 (fun a b => f a = g b) l1 l2.
Proof.
  revert l2. induction l1 as [|a l1 IH]; intros [|b l2] H;
    try discriminate; constructor.
  - now injection H.
  - apply IH. now injection H.
Qed.

Lemma keypoint_coordinates (kws : list Row) :
  map (fun kp => point_xy (coordinate kp))
      (map (keypoint_at (column0 kws) (column1 kws) (column2 kws))
           (seq 0 (List.length kws)))
  = map row_xy_int kws.
Proof.
  rewrite map_map. rewrite <- (map_nth_seq row_xy_int kws (0, 0, 0)%Q).
  apply map_ext. intros i.
  unfold keypoint_at, point_xy, row_xy_int, column0, column1.
  cbn [coordinate x y].
  rewrite <- (map_nth (fun r : Row => fst (fst r)) kws (0, 0, 0)%Q i).
  rewrite <- (map_nth (fun r : Row => snd (fst r)) kws (0, 0, 0)%Q i).
  reflexivity.
Qed.

(** C7 as stated fails: the first row of [sample_rows] has x = 100.5 and
    the first key point of the returned Person has x = 100. *)
Lemma coordinates_as_provided_fails :
  ~ coordinates_as_provided sample_rows 480 640
      default_keypoint_score_threshold.
Proof.
  intros H.
  destruct (person_from_keypoints_ok sample_rows 480 640
              default_keypoint_score_threshold) as
    (min_x & min_y & max_x & max_y & _ & _ & E); [simpl; lia|].
  specialize (H _ E). cbn [keypoints] in H.
  inversion H as [|kp r kps rs [Hx _] _]; subst.
  vm_compute in Hx. discriminate Hx.
Qed.

(** C7, amended: on an array of shape [17, 3], the coordinate of each
    key point of the returned Person is the (x, y) pair of the
    corresponding input row with [int] applied to each component
    (truncation toward zero); no rescaling is applied, and a component
    that is a whole number is returned with its value unchanged. *)
Theorem coordinates_are_truncated_inputs (kws : list Row) (h w thr : Q) :
  List.length kws = 17%nat ->
  exists person,
    person_from_keypoints_with_scores kws h w thr = Ok person /\
    Forall2 (fun kp r =>
               point_xy (coordinate kp) = row_xy_int r /\
               (whole (fst (fst r)) -> (x (coordinate kp) == fst (fst r))%Q) /\
               (whole (snd (fst r)) -> (y (coordinate kp) == snd (fst r))%Q))
            (keypoints person) kws.
Proof.
  intros Hlen.
  destruct (person_from_keypoints_ok kws h w thr) as
    (min_x & min_y & max_x & max_y & _ & _ & E); [lia|].
  eexists. split; [exact E|]. cbn [keypoints].
  pose proof (Forall2_of_map_eq _ _ _ _ (keypoint_coordinates kws)) as HF.
  eapply Forall2_impl; [|exact HF].
  cbv beta. intros kp r Hxy. split; [exact Hxy|].
  unfold point_xy, row_xy_int in Hxy. injection Hxy as Hx Hy.
  split; intros Hw.
  - rewrite Hx. now apply int_whole.
  - rewrite Hy. now apply int_whole.
Qed.

Lemma coordinates_are_truncated_inputs_witness :
  List.length sample_rows = 17%nat /\
  exists person,
    person_from_keypoints_with_scores sample_rows 480 640
      default_keypoint_score_threshold = Ok person /\
    Forall2 (fun kp r =>
               point_xy (coordinate kp) = row_xy_int r /\
               (whole (fst (fst r)) -> (x (coordinate kp) == fst (fst r))%Q) /\
               (whole (snd (fst r)) -> (y (coordinate kp) == snd (fst r))%Q))
            (keypoints person) sample_rows.
Proof.
  split; [reflexivity|].
  apply (coordinates_are_truncated_inputs sample_rows 480 640
           default_keypoint_score_threshold).
  reflexivity.
Defined.

(** C9: the returned value does not depend on [image_height] and
    [image_width]: two calls that differ only in them are equal. *)
Theorem person_independent_of_image_size
    (kws : list Row) (h w h' w' thr : Q) :
  person_from_keypoints_with_scores kws h w thr
  = person_from_keypoints_with_scores kws h' w' thr.
Proof. reflexivity. Qed.

(** * Properties of cheatdetection.py *)

(** ** The decision rule *)




Lemma predicted_class_range (prediction : list Q) (c : Z) :
  predicted_class prediction = Ok c -> c = 0 \/ c = 1 \/ c = 2.
Proof.
  unfold predicted_class, rbind.
  destruct (getitem prediction 0); [|discriminate].
  destruct (np_amax prediction); [|discriminate].
  destruct (Qeq_bool a a0).
  - destruct (getitem prediction 1); [|discriminate].
    destruct (Qgeb a (10000 * a1)); intros [= <-]; auto.
  - intros [= <-]; auto.
Qed.

Lemma decide_of_class (prediction : list Q) :
  decide prediction
  = match predicted_class prediction with
    | Ok c => if c =? 0 then Ok CHEATING
              else if c =? 1 then Ok NOT_CHEATING else Ok UNCERTAIN
    | Raise e => Raise e
    end.
Proof.
  unfold decide, rbind.
  destruct (predicted_class prediction) as [c|e] eqn:E; [|reflexivity].
  destruct (predicted_class_range _ _ E) as [-> | [-> | ->]]; reflexivity.
Qed.

(** ** The loop, run on a world *)

Section CheatDetectionProperties.

Context {Image : Type}.
Variable detector_detect : Image -> Result (list Person).
Variable landmarks_to_embedding : list Q -> Result (list Q).
Variable model_predict : list Q -> Result (list (list Q)).
Variable cv2_rectangle :
  Image -> Z * Z -> Z * Z -> Z * Z * Z -> Z -> Image.

Local Abbreviation class_of :=
  (person_class landmarks_to_embedding model_predict).
Local Abbreviation decision_of :=
  (person_decision landmarks_to_embedding model_predict).
Local Abbreviation cheating :=
  (is_cheating landmarks_to_embedding model_predict).
Local Abbreviation completing :=
  (completes landmarks_to_embedding model_predict).
Local Abbreviation work_of :=
  (classifier_calls landmarks_to_embedding).
Local Abbreviation calls_of :=
  (loop_calls landmarks_to_embedding model_predict).
Local Abbreviation pixels_after :=
  (loop_pixels landmarks_to_embedding model_predict cv2_rectangle).
Local Abbreviation result_of :=
  (loop_result landmarks_to_embedding model_predict).
Local Abbreviation run :=
  (detect_cheating detector_detect landmarks_to_embedding model_predict
                   cv2_rectangle).

Lemma person_decision_of_class (person : Person) :
  decision_of person
  = match class_of person with
    | Ok c => if c =? 0 then Ok CHEATING
              else if c =? 1 then Ok NOT_CHEATING else Ok UNCERTAIN
    | Raise e => Raise e
    end.
Proof.
  unfold person_decision, person_class, rbind.
  destruct (keypoints_dataframe person); [|reflexivity].
  destruct (landmarks_to_embedding a); [|reflexivity].
  destruct (model_predict a0); [|reflexivity].
  destruct (np_squeeze0 a1); [|reflexivity].
  apply decide_of_class.
Qed.

Lemma is_cheating_iff (person : Person) :
  cheating person = true <-> decision_of person = Ok CHEATING.
Proof.
  rewrite person_decision_of_class. unfold is_cheating.
  destruct (class_of person) as [c|e]; [|split; discriminate].
  destruct (c =? 0); [tauto|].
  destruct (c =? 1); split; discriminate.
Qed.

Lemma decided_completes (person : Person) (d : Decision) :
  decision_of person = Ok d -> completing person = true.
Proof.
  rewrite person_decision_of_class. unfold completes.
  destruct (class_of person); [reflexivity | discriminate].
Qed.

Lemma not_cheating_decisions (person : Person) :
  decision_of person = Ok NOT_CHEATING \/ decision_of person = Ok UNCERTAIN ->
  completing person = true /\ cheating person = false.
Proof.
  intros H. split.
  - destruct H as [H|H]; exact (decided_completes _ _ H).
  - destruct (cheating person) eqn:E; [|reflexivity].
    apply is_cheating_iff in E. rewrite E in H.
    destruct H; discriminate.
Qed.

Lemma process_person_run (person : Person) (cd : bool) (w : World Image) :
  process_person landmarks_to_embedding model_predict cv2_rectangle
                 person cd w
  = (body_result landmarks_to_embedding model_predict person cd,
     mkWorld (body_pixels landmarks_to_embedding model_predict
                          cv2_rectangle (pixels w) person)
             (calls w ++ body_calls landmarks_to_embedding model_predict
                                    person)).
Proof.
  destruct w as [img cs].
  unfold process_person, body_result, body_pixels, body_calls,
    classifier_calls, is_cheating, person_class, draw, rectangle_call.
  unfold bind, lift, embed, predict, rectangle, ret, record, rbind.
  cbn [pixels calls].
  destruct (keypoints_dataframe person) as [df|e];
    [|now rewrite app_nil_r].
  destruct (landmarks_to_embedding df) as [emb|e];
    [|now rewrite app_nil_r].
  destruct (model_predict emb) as [pr|e];
    [|now rewrite <- app_assoc, app_nil_r].
  destruct (np_squeeze0 pr) as [row|e];
    [|now rewrite <- app_assoc, app_nil_r].
  destruct (predicted_class row) as [c|e];
    [|now rewrite <- app_assoc, app_nil_r].
  destruct (c =? 0); cbn [pixels calls];
    now rewrite <- ?app_assoc, ?app_nil_r.
Qed.

Lemma for_person_in_run (persons : list Person) (cd : bool) (w : World Image) :
  for_person_in landmarks_to_embedding model_predict cv2_rectangle
                persons cd w
  = (result_of persons cd,
     mkWorld (pixels_after persons (pixels w))
             (calls w ++ calls_of persons)).
Proof.
  revert cd w. induction persons as [|person rest IH]; intros cd w.
  - destruct w. cbn. now rewrite app_nil_r.
  - cbn [for_person_in loop_result loop_pixels loop_calls].
    unfold bind at 1. rewrite process_person_run.
    unfold completes, body_result.
    destruct (class_of person) as [c|e].
    + rewrite IH. cbn [pixels calls]. now rewrite <- app_assoc.
    + cbn [pixels calls]. now rewrite app_nil_r.
Qed.

Lemma detect_cheating_run (w : World Image) :
  run w
  = match detector_detect (pixels w) with
    | Raise e => (Raise e, record Call_detect w)
    | Ok persons =>
        let w' := mkWorld (pixels_after persons (pixels w))
                          (calls w ++ Call_detect :: calls_of persons) in
        match result_of persons false with
        | Ok flag => (Ok (pixels w', flag), w')
        | Raise e => (Raise e, w')
        end
    end.
Proof.
  unfold detect_cheating. unfold bind at 1. unfold detect.
  destruct (detector_detect (pixels w)) as [[|person rest]|e];
    [reflexivity| |reflexivity].
  unfold bind at 1. rewrite for_person_in_run.
  unfold record. cbn [pixels calls]. rewrite <- app_assoc. cbn [app].
  destruct (result_of (person :: rest) false); reflexivity.
Qed.

(** ** The loop summaries *)

Lemma work_has_no_rectangle (person : Person) :
  filter is_rectangle (work_of person) = [].
Proof.
  unfold classifier_calls.
  destruct (keypoints_dataframe person) as [df|e]; [|reflexivity].
  destruct (landmarks_to_embedding df); reflexivity.
Qed.

Lemma work_is_classifier_work (person : Person) :
  filter is_classifier_work (work_of person) = work_of person.
Proof.
  unfold classifier_calls.
  destruct (keypoints_dataframe person) as [df|e]; [|reflexivity].
  destruct (landmarks_to_embedding df); reflexivity.
Qed.

Lemma body_rectangles (person : Person) :
  filter is_rectangle
         (body_calls landmarks_to_embedding model_predict person)
  = if cheating person then [rectangle_call person] else [].
Proof.
  unfold body_calls. rewrite filter_app, work_has_no_rectangle.
  destruct (cheating person); reflexivity.
Qed.

Lemma body_classifier_work (person : Person) :
  filter is_classifier_work
         (body_calls landmarks_to_embedding model_predict person)
  = work_of person.
Proof.
  unfold body_calls. rewrite filter_app, work_is_classifier_work.
  destruct (cheating person); cbn; now rewrite app_nil_r.
Qed.

Lemma raising_is_not_cheating (person : Person) (e : exn) :
  class_of person = Raise e ->
  cheating person = false /\ completing person = false.
Proof. unfold is_cheating, completes. now intros ->. Qed.

Lemma loop_result_returns (persons : list Person) (cd flag : bool) :
  result_of persons cd = Ok flag ->
  Forall (fun p => completing p = true) persons /\
  flag = cd || existsb cheating persons.
Proof.
  revert cd. induction persons as [|person rest IH]; intros cd;
    cbn [loop_result existsb].
  - intros [= <-]. split; [constructor | now rewrite orb_false_r].
  - unfold body_result.
    destruct (class_of person) as [c|e] eqn:E; [|discriminate].
    intros H. apply IH in H. destruct H as [HF ->].
    split.
    + constructor; [|exact HF]. unfold completes. now rewrite E.
    + assert (Hc : cheating person = (c =? 0))
        by (unfold is_cheating; now rewrite E).
      rewrite Hc. destruct (c =? 0), cd; reflexivity.
Qed.

Lemma loop_result_complete (persons : list Person) (cd : bool) :
  Forall (fun p => completing p = true) persons ->
  result_of persons cd = Ok (cd || existsb cheating persons).
Proof.
  intros HF. revert cd.
  induction HF as [|person rest Hp _ IH]; intros cd;
    cbn [loop_result existsb].
  - now rewrite orb_false_r.
  - unfold body_result. unfold completes in Hp.
    destruct (class_of person) as [c|e] eqn:E; [|discriminate].
    assert (Hc : cheating person = (c =? 0))
      by (unfold is_cheating; now rewrite E).
    rewrite IH, Hc. destruct (c =? 0), cd; reflexivity.
Qed.

Lemma loop_calls_complete (persons : list Person) :
  Forall (fun p => completing p = true) persons ->
  filter is_rectangle (calls_of persons)
  = map rectangle_call (filter cheating persons).
Proof.
  induction 1 as [|person rest Hp _ IH]; [reflexivity|].
  cbn [loop_calls filter]. rewrite Hp, filter_app, body_rectangles, IH.
  destruct (cheating person); reflexivity.
Qed.

Lemma loop_pixels_complete (persons : list Person) (image : Image) :
  Forall (fun p => completing p = true) persons ->
  pixels_after persons image
  = fold_left (draw cv2_rectangle) (filter cheating persons) image.
Proof.
  intros HF. revert image.
  induction HF as [|person rest Hp _ IH]; intros image; [reflexivity|].
  cbn [loop_pixels filter]. rewrite Hp, IH. unfold body_pixels.
  destruct (cheating person); reflexivity.
Qed.


Lemma loop_stops_at_failure (pre post : list Person) (bad : Person)
    (e : exn) (cd : bool) (image : Image) :
  Forall (fun p => completing p = true) pre ->
  class_of bad = Raise e ->
  result_of (pre ++ bad :: post) cd = Raise e /\
  calls_of (pre ++ bad :: post) = calls_of pre ++ work_of bad /\
  pixels_after (pre ++ bad :: post) image = pixels_after pre image.
Proof.
  intros HF Hbad. destruct (raising_is_not_cheating _ _ Hbad) as [Hc Hk].
  revert cd image.
  induction HF as [|person rest Hp _ IH]; intros cd image.
  - cbn [app loop_result loop_calls loop_pixels].
    unfold body_result, body_calls, body_pixels.
    rewrite Hbad, Hc, Hk. now rewrite !app_nil_r.
  - cbn [app loop_result loop_calls loop_pixels]. rewrite Hp.
    unfold body_result. unfold completes in Hp.
    destruct (class_of person) as [c|e']; [|discriminate].
    destruct (IH (if c =? 0 then true else cd)
                 (body_pixels landmarks_to_embedding model_predict
                              cv2_rectangle image person))
      as (R1 & R2 & R3).
    rewrite R1, R2, R3. now rewrite app_assoc.
Qed.

Lemma loop_classifier_work_complete (persons : list Person) :
  Forall (fun p => completing p = true) persons ->
  filter is_classifier_work (calls_of persons) = flat_map work_of persons.
Proof.
  induction 1 as [|person rest Hp _ IH]; [reflexivity|].
  cbn [loop_calls flat_map].
  now rewrite Hp, filter_app, body_classifier_work, IH.
Qed.

Lemma decided_all_complete (persons : list Person) :
  Forall (fun p => exists d, decision_of p = Ok d) persons ->
  Forall (fun p => completing p = true) persons.
Proof.
  apply Forall_impl. intros p [d Hd]. exact (decided_completes _ _ Hd).
Qed.

Lemma raised_decision (person : Person) (e : exn) :
  decision_of person = Raise e -> class_of person = Raise e.
Proof.
  rewrite person_decision_of_class.
  destruct (class_of person) as [c|e']; [|now intros [= ->]].
  destruct (c =? 0); [discriminate|]. destruct (c =? 1); discriminate.
Qed.

Lemma none_cheating (persons : list Person) :
  Forall (fun p => decision_of p = Ok NOT_CHEATING \/
                   decision_of p = Ok UNCERTAIN) persons ->
  Forall (fun p => completing p = true) persons /\
  filter cheating persons = [] /\
  existsb cheating persons = false.
Proof.
  induction 1 as [|person rest Hp _ (IH1 & IH2 & IH3)].
  - repeat split. constructor.
  - destruct (not_cheating_decisions _ Hp) as [Hk Hc].
    cbn [filter existsb]. rewrite Hc, IH2, IH3.
    repeat split. now constructor.
Qed.

(** ** Claims about detect_cheating *)

(** C2: the flag [detect_cheating] returns is true exactly when some
    detected person's decision is CHEATING; the call returns whenever
    every person gets a decision; and with no person detected it returns
    the frame as it was with the flag false, having called neither the
    embedding, the classifier nor [cv2.rectangle]. *)
Theorem frame_flag_is_or_of_decisions
    (w : World Image) (persons : list Person) :
  detector_detect (pixels w) = Ok persons ->
  (Forall (fun p => exists d, decision_of p = Ok d) persons ->
   exists image flag w', run w = (Ok (image, flag), w')) /\
  (forall image flag w',
      run w = (Ok (image, flag), w') ->
      (flag = true <->
       Exists (fun p => decision_of p = Ok CHEATING) persons)) /\
  (persons = [] ->
   run w = (Ok (pixels w, false), record Call_detect w)).
Proof.
  intros Hdet. rewrite detect_cheating_run, Hdet. cbv zeta.
  split; [|split].
  - intros HF. apply decided_all_complete in HF.
    rewrite (loop_result_complete _ false HF). eauto.
  - intros image flag w' Hrun.
    destruct (result_of persons false) as [flag'|e] eqn:E; [|discriminate].
    injection Hrun as _ <- _.
    apply loop_result_returns in E. destruct E as [_ ->]. cbn [orb].
    rewrite Exists_exists. split.
    + intros H. apply existsb_exists in H. destruct H as (p & Hp & Hc).
      exists p. split; [exact Hp | now apply is_cheating_iff].
    + intros (p & Hp & Hc). apply existsb_exists.
      exists p. split; [exact Hp | now apply is_cheating_iff].
  - intros ->. reflexivity.
Qed.


(** C10: when every detected person's decision is NOT_CHEATING or
    UNCERTAIN (the list may be non-empty), [detect_cheating] makes no
    [cv2.rectangle] call and returns the frame with the pixels it had,
    together with false. *)
Theorem no_cheating_frame_untouched
    (w : World Image) (persons : list Person) :
  detector_detect (pixels w) = Ok persons ->
  Forall (fun p => decision_of p = Ok NOT_CHEATING \/
                   decision_of p = Ok UNCERTAIN) persons ->
  exists new,
    run w = (Ok (pixels w, false), mkWorld (pixels w) (calls w ++ new)) /\
    filter is_rectangle new = [].
Proof.
  intros Hdet HF. destruct (none_cheating _ HF) as (Hk & Hnone & Hex).
  exists (Call_detect :: calls_of persons).
  rewrite detect_cheating_run, Hdet. cbv zeta.
  rewrite (loop_result_complete _ false Hk), Hex.
  rewrite (loop_pixels_complete _ _ Hk), Hnone.
  split; [reflexivity|].
  cbn [filter is_rectangle]. now rewrite loop_calls_complete, Hnone.
Qed.

(** C8, amended: a failure for one person is not isolated.  When the
    embedding or the classification raises for a person, and every
    person before got a decision, [detect_cheating] raises that same
    exception: rectangles of the CHEATING persons before stay drawn,
    and no person after is embedded, classified or drawn. *)
Theorem failure_aborts_frame
    (w : World Image) (pre post : list Person) (bad : Person) (e : exn) :
  detector_detect (pixels w) = Ok (pre ++ bad :: post) ->
  Forall (fun p => exists d, decision_of p = Ok d) pre ->
  decision_of bad = Raise e ->
  exists new,
    run w
    = (Raise e,
       mkWorld (fold_left (draw cv2_rectangle) (filter cheating pre)
                          (pixels w))
               (calls w ++ new)) /\
    filter is_rectangle new = map rectangle_call (filter cheating pre) /\
    filter is_classifier_work new = flat_map work_of pre ++ work_of bad.
Proof.
  intros Hdet HF Hbad.
  apply decided_all_complete in HF. apply raised_decision in Hbad.
  destruct (loop_stops_at_failure pre post bad e false
              (pixels w) HF Hbad) as (R1 & R2 & R3).
  exists (Call_detect :: calls_of pre ++ work_of bad).
  rewrite detect_cheating_run, Hdet. cbv zeta.
  rewrite R1, R2, R3, (loop_pixels_complete _ _ HF).
  split; [reflexivity|].
  cbn [filter is_rectangle is_classifier_work].
  rewrite !filter_app, work_has_no_rectangle, work_is_classifier_work.
  rewrite (loop_calls_complete _ HF), (loop_classifier_work_complete _ HF).
  now rewrite app_nil_r.
Qed.

End CheatDetectionProperties.

(** ** Determinism of the rule *)

Lemma Qeq_bool_compat (a a' b b' : Q) :
  (a == a')%Q -> (b == b')%Q -> Qeq_bool a b = Qeq_bool a' b'.
Proof.
  intros Ha Hb.
  destruct (Qeq_bool a b) eqn:E1, (Qeq_bool a' b') eqn:E2; try reflexivity.
  - apply Qeq_bool_iff in E1. rewrite Ha, Hb in E1.
    apply Qeq_bool_iff in E1. congruence.
  - apply Qeq_bool_iff in E2. rewrite <- Ha, <- Hb in E2.
    apply Qeq_bool_iff in E2. congruence.
Qed.

Lemma Qle_bool_compat (a a' b b' : Q) :
  (a == a')%Q -> (b == b')%Q -> Qle_bool a b = Qle_bool a' b'.
Proof.
  intros Ha Hb.
  destruct (Qle_bool a b) eqn:E1, (Qle_bool a' b') eqn:E2; try reflexivity.
  - apply Qle_bool_iff in E1. rewrite Ha, Hb in E1.
    apply Qle_bool_iff in E1. congruence.
  - apply Qle_bool_iff in E2. rewrite <- Ha, <- Hb in E2.
    apply Qle_bool_iff in E2. congruence.
Qed.

Lemma fold_Qmax_compat (l l' : list Q) :
  Forall2 Qeq l l' ->
  forall v v', (v == v')%Q -> (fold_left Qmax l v == fold_left Qmax l' v')%Q.
Proof.
  induction 1 as [|a a' l l' Ha _ IH]; intros v v' Hv; [exact Hv|].
  cbn [fold_left]. apply IH. now rewrite Ha, Hv.
Qed.

Lemma predicted_class_compat (p q : list Q) :
  Forall2 Qeq p q -> predicted_class p = predicted_class q.
Proof.
  intros H. destruct H as [|p0 q0 p' q' H0 H']; [reflexivity|].
  unfold predicted_class. cbn [getitem nth_error np_amax rbind].
  rewrite (Qeq_bool_compat p0 q0 _ _ H0 (fold_Qmax_compat _ _ H' _ _ H0)).
  destruct (Qeq_bool q0 (fold_left Qmax q' q0)); [|reflexivity].
  destruct H' as [|p1 q1 p'' q'' H1 _]; [reflexivity|].
  cbn [getitem nth_error rbind]. unfold Qgeb.
  rewrite (Qle_bool_compat (10000 * p1) (10000 * q1) p0 q0);
    [reflexivity | now rewrite H1 | exact H0].
Qed.

Lemma new_calls_app {Image : Type} (w : World Image) (image : Image)
    (l : list call) :
  new_calls w (mkWorld image (calls w ++ l)) = l.
Proof.
  unfold new_calls. cbn [calls].
  rewrite skipn_app, skipn_all, Nat.sub_diag. reflexivity.
Qed.

(** C3: the rule is deterministic.  Two vectors holding the same numbers
    get the same decision; and the rule keeps no state: whatever was
    recorded or drawn before and whatever the flag is, processing a
    person makes the same rectangle calls. *)
Theorem decision_rule_deterministic {Image : Type}
    (landmarks_to_embedding : list Q -> Result (list Q))
    (model_predict : list Q -> Result (list (list Q)))
    (cv2_rectangle : Image -> Z * Z -> Z * Z -> Z * Z * Z -> Z -> Image)
    (p q : list Q) (person : Person)
    (w1 w2 : World Image) (cd1 cd2 : bool) :
  Forall2 Qeq p q ->
  decide p = decide q /\
  filter is_rectangle
    (new_calls w1
       (snd (process_person landmarks_to_embedding model_predict
                            cv2_rectangle person cd1 w1)))
  = filter is_rectangle
      (new_calls w2
         (snd (process_person landmarks_to_embedding model_predict
                              cv2_rectangle person cd2 w2))).
Proof.
  intros H. split.
  - unfold decide. now rewrite (predicted_class_compat p q H).
  - rewrite !process_person_run. cbn [snd]. now rewrite !new_calls_app.
Qed.

Lemma decision_rule_deterministic_witness :
  Forall2 Qeq [1 # 2; 1 # 4; 1 # 4]%Q [2 # 4; 2 # 8; 3 # 12]%Q /\
  (decide [1 # 2; 1 # 4; 1 # 4]%Q = decide [2 # 4; 2 # 8; 3 # 12]%Q /\
   filter is_rectangle
     (new_calls demo_world
        (snd (process_person demo_embedding demo_predict canvas_rectangle
                cheater false demo_world)))
   = filter is_rectangle
       (new_calls (mkWorld [] [Call_detect])
          (snd (process_person demo_embedding demo_predict canvas_rectangle
                  cheater true (mkWorld [] [Call_detect]))))).
Proof.
  assert (H : Forall2 Qeq [1 # 2; 1 # 4; 1 # 4]%Q [2 # 4; 2 # 8; 3 # 12]%Q)
    by (repeat constructor).
  split; [exact H|].
  apply (decision_rule_deterministic demo_embedding demo_predict
           canvas_rectangle _ _ _ _ _ false true H).
Defined.

(** ** The claims on concrete frames *)

Lemma frame_flag_is_or_of_decisions_witness :
  demo_detector [honest; cheater; unclear] (pixels demo_world)
  = Ok [honest; cheater; unclear] /\
  ((Forall (fun p => exists d, demo_decision p = Ok d)
           [honest; cheater; unclear] ->
    exists image flag w',
      demo_run [honest; cheater; unclear] demo_world
      = (Ok (image, flag), w')) /\
   (forall image flag w',
       demo_run [honest; cheater; unclear] demo_world
       = (Ok (image, flag), w') ->
       (flag = true <->
        Exists (fun p => demo_decision p = Ok CHEATING)
               [honest; cheater; unclear])) /\
   ([honest; cheater; unclear] = [] ->
    demo_run [honest; cheater; unclear] demo_world
    = (Ok (pixels demo_world, false), record Call_detect demo_world))).
Proof.
  split; [reflexivity|].
  apply (frame_flag_is_or_of_decisions
           (demo_detector [honest; cheater; unclear])
           demo_embedding demo_predict canvas_rectangle demo_world
           [honest; cheater; unclear]).
  reflexivity.
Defined.


Lemma no_cheating_frame_untouched_witness :
  demo_detector [honest; unclear] (pixels demo_world)
  = Ok [honest; unclear] /\
  Forall (fun p => demo_decision p = Ok NOT_CHEATING \/
                   demo_decision p = Ok UNCERTAIN) [honest; unclear] /\
  exists new,
    demo_run [honest; unclear] demo_world
    = (Ok (pixels demo_world, false),
       mkWorld (pixels demo_world) (calls demo_world ++ new)) /\
    filter is_rectangle new = [].
Proof.
  assert (H : Forall (fun p => demo_decision p = Ok NOT_CHEATING \/
                               demo_decision p = Ok UNCERTAIN)
                     [honest; unclear]).
  { constructor; [left; reflexivity|].
    constructor; [right; reflexivity|]. constructor. }
  split; [reflexivity|]. split; [exact H|].
  apply (no_cheating_frame_untouched
           (demo_detector [honest; unclear])
           demo_embedding demo_predict canvas_rectangle demo_world
           [honest; unclear]).
  - reflexivity.
  - exact H.
Defined.

(** C8 as stated fails: with a degenerate pose first and a cheater
    second, the call raises instead of returning. *)
Lemma failures_isolated_fails :
  ~ failures_isolated (demo_detector [collapsed; cheater])
      demo_embedding demo_predict canvas_rectangle demo_world.
Proof.
  intros H.
  destruct (H [collapsed; cheater] eq_refl)
    as (image & flag & w' & new & E & _).
  vm_compute in E. discriminate E.
Qed.

Lemma failure_aborts_frame_witness :
  demo_detector [cheater; collapsed; cheater] (pixels demo_world)
  = Ok ([cheater] ++ collapsed :: [cheater]) /\
  Forall (fun p => exists d, demo_decision p = Ok d) [cheater] /\
  demo_decision collapsed = Raise (ExternalError "degenerate pose") /\
  exists new,
    demo_run [cheater; collapsed; cheater] demo_world
    = (Raise (ExternalError "degenerate pose"),
       mkWorld (fold_left (draw canvas_rectangle)
                          (filter demo_cheating [cheater])
                          (pixels demo_world))
               (calls demo_world ++ new)) /\
    filter is_rectangle new
    = map rectangle_call (filter demo_cheating [cheater]) /\
    filter is_classifier_work new
    = flat_map (classifier_calls demo_embedding) [cheater]
      ++ classifier_calls demo_embedding collapsed.
Proof.
  assert (H : Forall (fun p => exists d, demo_decision p = Ok d) [cheater]).
  { constructor; [exists CHEATING; reflexivity | constructor]. }
  split; [reflexivity|]. split; [exact H|]. split; [reflexivity|].
  apply (failure_aborts_frame
           (demo_detector [cheater; collapsed; cheater])
           demo_embedding demo_predict canvas_rectangle demo_world
           [cheater] [cheater] collapsed
           (ExternalError "degenerate pose")).
  - reflexivity.
  - exact H.
  - reflexivity.
Defined.

(** * Further properties of utils.py *)

(** ** The enumeration *)

(** X6: [BodyPart(i)] and [.value] are inverse to each other:
    [BodyPart(bp.value)] is [bp], a member returned for [i] has value
    [i], and the call raises ValueError exactly outside 0..16. *)
Theorem BodyPart_value_round_trip :
  (forall bp, BodyPart_call (BodyPart_value bp) = Ok bp) /\
  (forall i bp, BodyPart_call i = Ok bp -> BodyPart_value bp = i) /\
  (forall i, BodyPart_call i = Raise ValueError <-> i < 0 \/ 16 < i).
Proof.
  split; [|split].
  - intros bp. destruct bp; reflexivity.
  - intros i bp. unfold BodyPart_call.
    destruct (find (fun b => BodyPart_value b =? i) BodyPart_members)
      as [b|] eqn:E; [|discriminate].
    intros [= <-]. apply find_some in E. destruct E as [_ E].
    now apply Z.eqb_eq in E.
  - intros i. split.
    + intros H.
      destruct (Z_lt_le_dec i 0) as [Hlo|Hlo]; [now left|].
      destruct (Z_lt_le_dec 16 i) as [Hhi|Hhi]; [now right|].
      exfalso. rewrite <- (Z2Nat.id i Hlo) in H.
      rewrite BodyPart_call_lt in H by lia. discriminate.
    + intros H. unfold BodyPart_call, BodyPart_members.
      cbn [find BodyPart_value].
      repeat match goal with
             | |- context [?a =? ?b] =>
                 let E := fresh in
                 destruct (Z.eqb_spec a b) as [E|E]; [lia|]
             end.
      reflexivity.
Qed.

(** ** Which arrays are accepted *)

Lemma fold_Qmin_In (l : list Q) (v : Q) : In (fold_left Qmin l v) (v :: l).
Proof.
  revert v. induction l as [|a l IH]; intros v; [now left|].
  cbn [fold_left]. destruct (IH (Qmin v a)) as [H|H].
  - rewrite <- H. unfold Qmin, GenericMinMax.gmin.
    destruct (v ?= a)%Q; [left | left | right; left]; reflexivity.
  - right. now right.
Qed.

Lemma fold_Qmax_In (l : list Q) (v : Q) : In (fold_left Qmax l v) (v :: l).
Proof.
  revert v. induction l as [|a l IH]; intros v; [now left|].
  cbn [fold_left]. destruct (IH (Qmax v a)) as [H|H].
  - rewrite <- H. unfold Qmax, GenericMinMax.gmax.
    destruct (v ?= a)%Q; [left | right; left | left]; reflexivity.
  - right. now right.
Qed.

Lemma np_amin_In (a : list Q) (m : Q) : np_amin a = Ok m -> In m a.
Proof.
  destruct a as [|v rest]; [discriminate|]. intros [= <-].
  apply fold_Qmin_In.
Qed.

Lemma np_amax_In (a : list Q) (m : Q) : np_amax a = Ok m -> In m a.
Proof.
  destruct a as [|v rest]; [discriminate|]. intros [= <-].
  apply fold_Qmax_In.
Qed.

Lemma np_amin_le (a : list Q) (m : Q) :
  np_amin a = Ok m -> Forall (fun v => m <= v)%Q a.
Proof.
  destruct a as [|v rest]; [discriminate|]. intros [= <-].
  destruct (fold_Qmin_le rest v). now constructor.
Qed.

Lemma np_amax_ge (a : list Q) (m : Q) :
  np_amax a = Ok m -> Forall (fun v => v <= m)%Q a.
Proof.
  destruct a as [|v rest]; [discriminate|]. intros [= <-].
  destruct (fold_Qmax_ge rest v). now constructor.
Qed.

(** The returned value, with the four extrema named. *)
Lemma person_from_keypoints_value (kws : list Row) (h w thr : Q) :
  (1 <= List.length kws <= 17)%nat ->
  exists min_x min_y max_x max_y,
    np_amin (column0 kws) = Ok min_x /\
    np_amin (column1 kws) = Ok min_y /\
    np_amax (column0 kws) = Ok max_x /\
    np_amax (column1 kws) = Ok max_y /\
    person_from_keypoints_with_scores kws h w thr
    = Ok (mkPerson
            (map (keypoint_at (column0 kws) (column1 kws) (column2 kws))
                 (seq 0 (List.length kws)))
            (mkRectangle
               (mkPoint (inject_Z (int min_x)) (inject_Z (int min_y)))
               (mkPoint (inject_Z (int max_x)) (inject_Z (int max_y))))
            (np_average (filter (fun s => Qgtb s thr) (column2 kws)))
            None).
Proof.
  intros Hlen.
  destruct (column_length kws) as (L0 & L1 & L2).
  assert (N0 : column0 kws <> [])
    by (intros E; rewrite E in L0; simpl in L0; lia).
  assert (N1 : column1 kws <> [])
    by (intros E; rewrite E in L1; simpl in L1; lia).
  destruct (np_amin_spec _ N0) as (min_x & Emin_x & _).
  destruct (np_amin_spec _ N1) as (min_y & Emin_y & _).
  destruct (np_amax_spec _ N0) as (max_x & Emax_x & _).
  destruct (np_amax_spec _ N1) as (max_y & Emax_y & _).
  exists min_x, min_y, max_x, max_y. repeat (split; [assumption|]).
  unfold person_from_keypoints_with_scores.
  rewrite append_keypoints_seq by (rewrite L2; lia).
  rewrite Emin_x, Emin_y, Emax_x, Emax_y. simpl. now rewrite L2.
Qed.

(** X1: the function returns a Person exactly on arrays of one to
    seventeen rows; on an empty array and on more than seventeen rows it
    raises ValueError. *)
Theorem person_returned_iff_row_count (kws : list Row) (h w thr : Q) :
  ((exists person, person_from_keypoints_with_scores kws h w thr = Ok person)
   <-> (1 <= List.length kws <= 17)%nat) /\
  (person_from_keypoints_with_scores kws h w thr = Raise ValueError
   <-> (List.length kws = 0 \/ 17 < List.length kws)%nat).
Proof.
  destruct (Nat.eq_dec (List.length kws) 0) as [H0|H0];
    [|destruct (le_lt_dec (List.length kws) 17) as [H17|H17]].
  - rewrite (person_from_keypoints_raises kws h w thr (or_introl H0)).
    split; split; try tauto; try lia.
    intros [person E]. discriminate.
  - destruct (person_from_keypoints_ok kws h w thr) as
      (a & b & c & d & _ & _ & E); [lia|].
    rewrite E. split; split; try lia; try discriminate.
    intros _. eauto.
  - rewrite (person_from_keypoints_raises kws h w thr (or_intror H17)).
    split; split; try tauto; try lia.
    intros [person E]. discriminate.
Qed.

(** ** Key points of shorter arrays *)

Lemma map_nth_firstn {A : Type} (l : list A) (d : A) (n : nat) :
  (n <= List.length l)%nat ->
  map (fun i => nth i l d) (seq 0 n) = firstn n l.
Proof.
  revert n. induction l as [|a l IH]; intros n H.
  - simpl in H. assert (n = 0%nat) by lia. now subst.
  - destruct n as [|n]; [reflexivity|].
    cbn [seq map nth firstn]. f_equal.
    rewrite <- seq_shift, map_map. apply IH. simpl in H. lia.
Qed.

(** X2: on one to seventeen rows the Person has one key point per row,
    labelled with the first members of BodyPart in order, each carrying
    the score of its row unchanged; the [id] is None. *)
Theorem keypoints_follow_rows (kws : list Row) (h w thr : Q) :
  (1 <= List.length kws <= 17)%nat ->
  exists person,
    person_from_keypoints_with_scores kws h w thr = Ok person /\
    List.length (keypoints person) = List.length kws /\
    map body_part (keypoints person)
    = firstn (List.length kws) BodyPart_members /\
    map score (keypoints person) = column2 kws /\
    id person = None.
Proof.
  intros Hlen.
  destruct (person_from_keypoints_ok kws h w thr Hlen) as
    (a & b & c & d & _ & _ & E).
  eexists. split; [exact E|]. cbn [keypoints id].
  destruct (column_length kws) as (_ & _ & L2).
  split; [now rewrite length_map, length_seq|].
  split; [|split; [|reflexivity]].
  - rewrite map_map. cbn [keypoint_at body_part].
    apply map_nth_firstn. simpl. lia.
  - rewrite map_map. cbn [keypoint_at score].
    rewrite <- L2. rewrite (map_nth_seq (fun s : Q => s)). apply map_id.
Qed.

Lemma keypoints_follow_rows_witness :
  (1 <= List.length short_rows <= 17)%nat /\
  exists person,
    person_from_keypoints_with_scores short_rows 480 640
      default_keypoint_score_threshold = Ok person /\
    List.length (keypoints person) = List.length short_rows /\
    map body_part (keypoints person)
    = firstn (List.length short_rows) BodyPart_members /\
    map score (keypoints person) = column2 short_rows /\
    id person = None.
Proof.
  split; [simpl; lia|].
  apply (keypoints_follow_rows short_rows 480 640
           default_keypoint_score_threshold).
  simpl; lia.
Defined.

(** ** The bounding box *)

Lemma column_index (l : list Q) (m : Q) :
  In m l -> exists i, (i < List.length l)%nat /\ nth i l 0%Q = m.
Proof. intros H. now apply In_nth. Qed.

(** X3: the bounding box is the exact box of the returned key points:
    it contains all of them, and each of its four sides passes through
    one of them, so there is no margin. *)
Theorem bounding_box_is_tight (kws : list Row) (h w thr : Q) :
  (1 <= List.length kws <= 17)%nat ->
  exists person,
    person_from_keypoints_with_scores kws h w thr = Ok person /\
    Forall (fun kp => inside (bounding_box person) (coordinate kp))
           (keypoints person) /\
    (exists kp, In kp (keypoints person) /\
       x (coordinate kp) = x (start_point (bounding_box person))) /\
    (exists kp, In kp (keypoints person) /\
       y (coordinate kp) = y (start_point (bounding_box person))) /\
    (exists kp, In kp (keypoints person) /\
       x (coordinate kp) = x (end_point (bounding_box person))) /\
    (exists kp, In kp (keypoints person) /\
       y (coordinate kp) = y (end_point (bounding_box person))).
Proof.
  intros Hlen.
  destruct (person_from_keypoints_value kws h w thr Hlen) as
    (min_x & min_y & max_x & max_y & Ex & Ey & Fx & Fy & E).
  eexists. split; [exact E|].
  cbn [keypoints bounding_box start_point end_point x y].
  destruct (column_length kws) as (L0 & L1 & L2).
  assert (Hkp : forall i, (i < List.length kws)%nat ->
            In (keypoint_at (column0 kws) (column1 kws) (column2 kws) i)
               (map (keypoint_at (column0 kws) (column1 kws) (column2 kws))
                    (seq 0 (List.length kws)))).
  { intros i Hi. apply in_map, in_seq. lia. }
  split.
  { apply Forall_forall. intros kp Hin.
    apply in_map_iff in Hin. destruct Hin as (i & <- & Hi).
    apply in_seq in Hi.
    pose proof (np_amin_le _ _ Ex) as Bx. pose proof (np_amax_ge _ _ Fx) as Cx.
    pose proof (np_amin_le _ _ Ey) as By. pose proof (np_amax_ge _ _ Fy) as Cy.
    rewrite Forall_forall in Bx, Cx, By, Cy.
    assert (I0 : In (nth i (column0 kws) 0%Q) (column0 kws))
      by (apply nth_In; lia).
    assert (I1 : In (nth i (column1 kws) 0%Q) (column1 kws))
      by (apply nth_In; lia).
    unfold inside, keypoint_at.
    cbn [coordinate bounding_box start_point end_point x y].
    repeat split; apply inject_int_le; auto. }
  repeat split.
  - destruct (column_index _ _ (np_amin_In _ _ Ex)) as (i & Hi & Hn).
    exists (keypoint_at (column0 kws) (column1 kws) (column2 kws) i).
    split; [apply Hkp; lia|]. cbn. now rewrite Hn.
  - destruct (column_index _ _ (np_amin_In _ _ Ey)) as (i & Hi & Hn).
    exists (keypoint_at (column0 kws) (column1 kws) (column2 kws) i).
    split; [apply Hkp; lia|]. cbn. now rewrite Hn.
  - destruct (column_index _ _ (np_amax_In _ _ Fx)) as (i & Hi & Hn).
    exists (keypoint_at (column0 kws) (column1 kws) (column2 kws) i).
    split; [apply Hkp; lia|]. cbn. now rewrite Hn.
  - destruct (column_index _ _ (np_amax_In _ _ Fy)) as (i & Hi & Hn).
    exists (keypoint_at (column0 kws) (column1 kws) (column2 kws) i).
    split; [apply Hkp; lia|]. cbn. now rewrite Hn.
Qed.

Lemma bounding_box_is_tight_witness :
  (1 <= List.length short_rows <= 17)%nat /\
  exists person,
    person_from_keypoints_with_scores short_rows 480 640
      default_keypoint_score_threshold = Ok person /\
    Forall (fun kp => inside (bounding_box person) (coordinate kp))
           (keypoints person) /\
    (exists kp, In kp (keypoints person) /\
       x (coordinate kp) = x (start_point (bounding_box person))) /\
    (exists kp, In kp (keypoints person) /\
       y (coordinate kp) = y (start_point (bounding_box person))) /\
    (exists kp, In kp (keypoints person) /\
       x (coordinate kp) = x (end_point (bounding_box person))) /\
    (exists kp, In kp (keypoints person) /\
       y (coordinate kp) = y (end_point (bounding_box person))).
Proof.
  split; [simpl; lia|].
  apply (bounding_box_is_tight short_rows 480 640
           default_keypoint_score_threshold).
  simpl; lia.
Defined.

Lemma int_within_one (q : Q) :
  (inject_Z (int q) - 1 < q)%Q /\ (q < inject_Z (int q) + 1)%Q.
Proof.
  destruct (Qlt_le_dec q 0) as [Hq|Hq].
  - rewrite (int_neg q Hq).
    pose proof (Qceiling_lt q) as H1. pose proof (Qle_ceiling q) as H2.
    unfold Z.sub in H1. rewrite inject_Z_plus in H1.
    change (inject_Z (- (1))) with (- (1))%Q in H1.
    split; lra.
  - rewrite (int_nonneg q Hq).
    pose proof (Qfloor_le q) as H1. pose proof (Qlt_floor q) as H2.
    rewrite inject_Z_plus in H2. change (inject_Z 1) with 1%Q in H2.
    split; lra.
Qed.

(** X4: the integer box may leave an input coordinate outside, but by
    less than one unit: every x of the input lies strictly between
    [start_point.x - 1] and [end_point.x + 1], and likewise every y. *)
Theorem raw_coordinates_within_one_unit (kws : list Row) (h w thr : Q) :
  (1 <= List.length kws <= 17)%nat ->
  exists person,
    person_from_keypoints_with_scores kws h w thr = Ok person /\
    Forall (fun r =>
              (x (start_point (bounding_box person)) - 1 < fst (fst r))%Q /\
              (fst (fst r) < x (end_point (bounding_box person)) + 1)%Q /\
              (y (start_point (bounding_box person)) - 1 < snd (fst r))%Q /\
              (snd (fst r) < y (end_point (bounding_box person)) + 1)%Q)
           kws.
Proof.
  intros Hlen.
  destruct (person_from_keypoints_ok kws h w thr Hlen) as
    (min_x & min_y & max_x & max_y & Bx & By & E).
  eexists. split; [exact E|].
  cbn [bounding_box start_point end_point x y].
  rewrite Forall_forall in Bx, By. apply Forall_forall. intros r Hr.
  destruct (Bx (fst (fst r))) as [X1 X2];
    [exact (in_map (fun r : Row => fst (fst r)) kws r Hr)|].
  destruct (By (snd (fst r))) as [Y1 Y2];
    [exact (in_map (fun r : Row => snd (fst r)) kws r Hr)|].
  destruct (int_within_one min_x) as [A1 _].
  destruct (int_within_one max_x) as [_ A2].
  destruct (int_within_one min_y) as [A3 _].
  destruct (int_within_one max_y) as [_ A4].
  repeat split; lra.
Qed.

Lemma raw_coordinates_within_one_unit_witness :
  (1 <= List.length sample_rows <= 17)%nat /\
  exists person,
    person_from_keypoints_with_scores sample_rows 480 640
      default_keypoint_score_threshold = Ok person /\
    Forall (fun r =>
              (x (start_point (bounding_box person)) - 1 < fst (fst r))%Q /\
              (fst (fst r) < x (end_point (bounding_box person)) + 1)%Q /\
              (y (start_point (bounding_box person)) - 1 < snd (fst r))%Q /\
              (snd (fst r) < y (end_point (bounding_box person)) + 1)%Q)
           sample_rows.
Proof.
  split; [simpl; lia|].
  apply (raw_coordinates_within_one_unit sample_rows 480 640
           default_keypoint_score_threshold).
  simpl; lia.
Defined.

(** ** Bounds on the person score *)









(** ** What each output depends on *)

Lemma Ok_inj {A : Type} (a b : A) : Ok a = Ok b -> a = b.
Proof. now intros [= ->]. Qed.

(** X18: the key point coordinates and the bounding box are computed
    from the two coordinate columns only, and the Person score from the
    score column and the threshold only: arrays that agree on the
    coordinates give the same coordinates and box whatever their scores
    and thresholds, and arrays that agree on the scores give the same
    score under one threshold whatever their coordinates. *)
Theorem outputs_depend_on_their_columns
    (kws1 kws2 : list Row) (h w thr1 thr2 : Q) :
  (1 <= List.length kws1 <= 17)%nat ->
  List.length kws2 = List.length kws1 ->
  exists person1 person2,
    person_from_keypoints_with_scores kws1 h w thr1 = Ok person1 /\
    person_from_keypoints_with_scores kws2 h w thr2 = Ok person2 /\
    (column0 kws1 = column0 kws2 -> column1 kws1 = column1 kws2 ->
     map coordinate (keypoints person1) = map coordinate (keypoints person2) /\
     bounding_box person1 = bounding_box person2) /\
    (column2 kws1 = column2 kws2 -> thr1 = thr2 ->
     person_score person1 = person_score person2).
Proof.
  intros Hlen1 Hlen.
  assert (Hlen2 : (1 <= List.length kws2 <= 17)%nat) by lia.
  destruct (person_from_keypoints_value kws1 h w thr1 Hlen1) as
    (min_x & min_y & max_x & max_y & Ex & Ey & Fx & Fy & E1).
  destruct (person_from_keypoints_value kws2 h w thr2 Hlen2) as
    (min_x' & min_y' & max_x' & max_y' & Ex' & Ey' & Fx' & Fy' & E2).
  eexists. eexists. split; [exact E1|]. split; [exact E2|].
  cbn [keypoints bounding_box person_score]. split.
  - intros H0 H1. rewrite H0 in Ex, Fx. rewrite H1 in Ey, Fy.
    rewrite Ex in Ex'. rewrite Ey in Ey'. rewrite Fx in Fx'. rewrite Fy in Fy'.
    apply Ok_inj in Ex', Ey', Fx', Fy'. subst.
    split; [|reflexivity].
    rewrite !map_map. rewrite Hlen. apply map_ext. intros i.
    unfold keypoint_at. cbn [coordinate]. now rewrite H0, H1.
  - intros H2 ->. now rewrite H2.
Qed.

Lemma outputs_depend_on_their_columns_witness :
  (1 <= List.length sample_rows <= 17)%nat /\
  List.length collapsed_rows = List.length sample_rows /\
  exists person1 person2,
    person_from_keypoints_with_scores sample_rows 480 640 (1 # 10) = Ok person1 /\
    person_from_keypoints_with_scores collapsed_rows 480 640 (1 # 10)
    = Ok person2 /\
    (column0 sample_rows = column0 collapsed_rows ->
     column1 sample_rows = column1 collapsed_rows ->
     map coordinate (keypoints person1) = map coordinate (keypoints person2) /\
     bounding_box person1 = bounding_box person2) /\
    (column2 sample_rows = column2 collapsed_rows -> (1 # 10) = (1 # 10) ->
     person_score person1 = person_score person2).
Proof.
  split; [simpl; lia|]. split; [reflexivity|].
  apply (outputs_depend_on_their_columns sample_rows collapsed_rows
           480 640 (1 # 10) (1 # 10)).
  - simpl; lia.
  - reflexivity.
Defined.

(** ** The threshold *)







(** * Further properties of cheatdetection.py *)

(** ** The data frame of a person *)

Lemma length_concat_triples (kps : list KeyPoint) :
  List.length (concat (map keypoint_triple kps)) = (3 * List.length kps)%nat.
Proof.
  induction kps as [|kp kps IH]; [reflexivity|].
  cbn [map concat List.length app keypoint_triple]. rewrite IH. lia.
Qed.


(** ** The rule on vectors of any length *)




(** ** Rescaling the prediction *)






(** ** The rule on probability vectors *)




(** ** From a key point array to the frame *)




(** X16: a Person built from fewer than seventeen rows is returned by
    [person_from_keypoints_with_scores] but cannot be processed by
    [detect_cheating]: the column assignment raises ValueError, whatever
    the embedding and the classifier are. *)
Theorem short_person_fails_column_check (kws : list Row) (h w thr : Q) :
  (1 <= List.length kws < 17)%nat ->
  exists person,
    person_from_keypoints_with_scores kws h w thr = Ok person /\
    keypoints_dataframe person = Raise ValueError /\
    forall landmarks_to_embedding model_predict,
      person_class landmarks_to_embedding model_predict person
      = Raise ValueError.
Proof.
  intros Hlen.
  destruct (person_from_keypoints_ok kws h w thr) as
    (min_x & min_y & max_x & max_y & _ & _ & E); [lia|].
  eexists. split; [exact E|].
  assert (D : keypoints_dataframe
                (mkPerson
                   (map (keypoint_at (column0 kws) (column1 kws) (column2 kws))
                        (seq 0 (List.length kws)))
                   (mkRectangle
                      (mkPoint (inject_Z (int min_x)) (inject_Z (int min_y)))
                      (mkPoint (inject_Z (int max_x)) (inject_Z (int max_y))))
                   (np_average (filter (fun s => Qgtb s thr) (column2 kws)))
                   None)
              = Raise ValueError).
  { unfold keypoints_dataframe, keypoints_array. cbn [keypoints].
    change (fun kp : KeyPoint => [x (coordinate kp); y (coordinate kp); score kp])
      with keypoint_triple.
    rewrite length_concat_triples, length_map, length_seq.
    change (List.length column_names) with 51%nat.
    destruct (Nat.eqb_spec (3 * List.length kws) 51); [lia | reflexivity]. }
  split; [exact D|].
  intros emb pred. unfold person_class. now rewrite D.
Qed.

Lemma short_person_fails_column_check_witness :
  (1 <= List.length short_rows < 17)%nat /\
  exists person,
    person_from_keypoints_with_scores short_rows 480 640
      default_keypoint_score_threshold = Ok person /\
    keypoints_dataframe person = Raise ValueError /\
    forall landmarks_to_embedding model_predict,
      person_class landmarks_to_embedding model_predict person
      = Raise ValueError.
Proof.
  split; [simpl; lia|].
  apply (short_person_fails_column_check short_rows 480 640
           default_keypoint_score_threshold).
  simpl; lia.
Defined.

(** ** Further properties of detect_cheating *)

Lemma existsb_permutation {A : Type} (f : A -> bool) (l1 l2 : list A) :
  Permutation l1 l2 -> existsb f l1 = existsb f l2.
Proof.
  induction 1 as [|a l1 l2 _ IH|a b l|l1 l2 l3 _ IH1 _ IH2];
    cbn [existsb].
  - reflexivity.
  - now rewrite IH.
  - destruct (f a), (f b); reflexivity.
  - now rewrite IH1.
Qed.

Lemma filter_permutation {A : Type} (f : A -> bool) (l1 l2 : list A) :
  Permutation l1 l2 -> Permutation (filter f l1) (filter f l2).
Proof.
  induction 1 as [|a l1 l2 _ IH|a b l|l1 l2 l3 _ IH1 _ IH2];
    cbn [filter].
  - constructor.
  - destruct (f a); [now constructor | exact IH].
  - destruct (f a), (f b); try reflexivity. apply perm_swap.
  - now transitivity (filter f l2).
Qed.

Section CheatDetectionFurther.

Context {Image : Type}.
Variable detector_detect : Image -> Result (list Person).
Variable landmarks_to_embedding : list Q -> Result (list Q).
Variable model_predict : list Q -> Result (list (list Q)).
Variable cv2_rectangle :
  Image -> Z * Z -> Z * Z -> Z * Z * Z -> Z -> Image.

Local Abbreviation class_of :=
  (person_class landmarks_to_embedding model_predict).
Local Abbreviation decision_of :=
  (person_decision landmarks_to_embedding model_predict).
Local Abbreviation cheating :=
  (is_cheating landmarks_to_embedding model_predict).
Local Abbreviation completing :=
  (completes landmarks_to_embedding model_predict).
Local Abbreviation work_of :=
  (classifier_calls landmarks_to_embedding).
Local Abbreviation calls_of :=
  (loop_calls landmarks_to_embedding model_predict).
Local Abbreviation run :=
  (detect_cheating detector_detect landmarks_to_embedding model_predict
                   cv2_rectangle).

(** X11: an exception of the pose detector is not caught: the call
    raises it, with the frame untouched and nothing called after the
    detector. *)
Theorem detector_failure_propagates (w : World Image) (e : exn) :
  detector_detect (pixels w) = Raise e ->
  exists w',
    run w = (Raise e, w') /\
    pixels w' = pixels w /\
    calls w' = calls w ++ [Call_detect].
Proof.
  intros H. rewrite detect_cheating_run, H.
  eexists. split; [reflexivity|]. split; reflexivity.
Qed.

(** X12: a detected person whose key point list does not have exactly
    17 entries stops the frame with ValueError before the embedding is
    called for it; persons before it have been classified and drawn,
    persons after it are not looked at. *)
Theorem wrong_keypoint_count_aborts
    (w : World Image) (pre post : list Person) (bad : Person) :
  detector_detect (pixels w) = Ok (pre ++ bad :: post) ->
  Forall (fun p => exists d, decision_of p = Ok d) pre ->
  List.length (keypoints bad) <> 17%nat ->
  exists new,
    run w
    = (Raise ValueError,
       mkWorld (fold_left (draw cv2_rectangle) (filter cheating pre)
                          (pixels w))
               (calls w ++ new)) /\
    filter is_rectangle new = map rectangle_call (filter cheating pre) /\
    filter is_classifier_work new = flat_map work_of pre.
Proof.
  intros Hdet HF Hbad.
  apply decided_all_complete in HF.
  assert (D : keypoints_dataframe bad = Raise ValueError).
  { unfold keypoints_dataframe, keypoints_array.
    change (fun kp : KeyPoint => [x (coordinate kp); y (coordinate kp); score kp])
      with keypoint_triple.
    rewrite length_concat_triples.
    change (List.length column_names) with 51%nat.
    destruct (Nat.eqb_spec (3 * List.length (keypoints bad)) 51);
      [lia | reflexivity]. }
  assert (C : class_of bad = Raise ValueError)
    by (unfold person_class; now rewrite D).
  assert (W : work_of bad = [])
    by (unfold classifier_calls; now rewrite D).
  destruct (loop_stops_at_failure landmarks_to_embedding model_predict
              cv2_rectangle pre post bad ValueError false (pixels w) HF C)
    as (R1 & R2 & R3).
  exists (Call_detect :: calls_of pre).
  rewrite detect_cheating_run, Hdet. cbv zeta.
  rewrite R1, R2, R3, W, app_nil_r.
  rewrite (loop_pixels_complete _ _ _ _ _ HF).
  split; [reflexivity|].
  cbn [filter is_rectangle is_classifier_work].
  now rewrite (loop_calls_complete _ _ _ HF),
    (loop_classifier_work_complete _ _ _ HF).
Qed.

(** X13: the order in which the detector lists the persons does not
    matter for the outcome: if the call returns on one frame, it returns
    on any frame where the same persons are listed in another order,
    with the same flag and the same rectangles up to order. *)
Theorem flag_independent_of_person_order
    (w1 w2 w1' : World Image) (persons1 persons2 : list Person)
    (out1 : Image * bool) :
  detector_detect (pixels w1) = Ok persons1 ->
  detector_detect (pixels w2) = Ok persons2 ->
  Permutation persons1 persons2 ->
  run w1 = (Ok out1, w1') ->
  exists out2 w2',
    run w2 = (Ok out2, w2') /\
    snd out2 = snd out1 /\
    Permutation (filter is_rectangle (new_calls w1 w1'))
                (filter is_rectangle (new_calls w2 w2')).
Proof.
  intros H1 H2 HP. rewrite !detect_cheating_run, H1, H2. cbv zeta.
  destruct (loop_result landmarks_to_embedding model_predict persons1 false)
    as [flag|e] eqn:E; [|discriminate].
  intros [= <- <-].
  apply loop_result_returns in E. destruct E as [HF ->].
  assert (HF2 : Forall (fun p => completing p = true) persons2)
    by (eapply Permutation_Forall; eassumption).
  rewrite (loop_result_complete _ _ _ false HF2).
  eexists. eexists. split; [reflexivity|]. cbn [snd orb]. split.
  - symmetry. now apply existsb_permutation.
  - rewrite !new_calls_app. cbn [filter is_rectangle].
    rewrite (loop_calls_complete _ _ _ HF), (loop_calls_complete _ _ _ HF2).
    apply Permutation_map. now apply filter_permutation.
Qed.

Lemma loop_calls_without_detect (persons : list Person) :
  ~ In Call_detect (calls_of persons).
Proof.
  induction persons as [|person rest IH]; [intros []|].
  cbn [loop_calls]. intros H. apply in_app_or in H. destruct H as [H|H].
  - unfold body_calls, classifier_calls, rectangle_call in H.
    apply in_app_or in H. destruct H as [H|H].
    + destruct (keypoints_dataframe person) as [df|]; [|destruct H].
      destruct H as [H|H]; [discriminate|].
      destruct (landmarks_to_embedding df); [|destruct H].
      destruct H as [H|[]]. discriminate.
    + destruct (cheating person); [|destruct H].
      destruct H as [H|[]]. discriminate.
  - destruct (completing person); [now apply IH | destruct H].
Qed.

Lemma completing_work (person : Person) :
  completing person = true ->
  exists df embedding,
    keypoints_dataframe person = Ok df /\
    landmarks_to_embedding df = Ok embedding /\
    work_of person
    = [Call_landmarks_to_embedding df; Call_predict embedding].
Proof.
  unfold completes, person_class, classifier_calls, rbind.
  destruct (keypoints_dataframe person) as [df|]; [|discriminate].
  destruct (landmarks_to_embedding df) as [emb|] eqn:E; [|discriminate].
  intros _. exists df, emb. split; [|split]; [reflexivity | exact E |].
  reflexivity.
Qed.

(** X14: in a run that returns, the detector is called once, first, and
    then every person is handled once, in the detector's order: the
    embedding is called on the person's own data frame and the
    classifier on that embedding, and on nothing else. *)
Theorem every_person_classified_once
    (w w' : World Image) (persons : list Person) (out : Image * bool) :
  detector_detect (pixels w) = Ok persons ->
  run w = (Ok out, w') ->
  exists new,
    calls w' = calls w ++ Call_detect :: new /\
    ~ In Call_detect new /\
    filter is_classifier_work new = flat_map work_of persons /\
    Forall (fun p => exists df embedding,
                keypoints_dataframe p = Ok df /\
                landmarks_to_embedding df = Ok embedding /\
                work_of p
                = [Call_landmarks_to_embedding df; Call_predict embedding])
           persons.
Proof.
  intros Hdet. rewrite detect_cheating_run, Hdet. cbv zeta.
  destruct (loop_result landmarks_to_embedding model_predict persons false)
    as [flag|e] eqn:E; [|discriminate].
  intros [= _ <-]. apply loop_result_returns in E. destruct E as [HF _].
  exists (calls_of persons). cbn [calls].
  split; [reflexivity|]. split; [apply loop_calls_without_detect|].
  split; [now apply loop_classifier_work_complete|].
  eapply Forall_impl; [|exact HF]. intros p. apply completing_work.
Qed.

End CheatDetectionFurther.

(** ** The further properties on concrete frames *)

Lemma detector_failure_propagates_witness :
  failing_detector (pixels demo_world)
  = Raise (ExternalError "detector unavailable") /\
  exists w',
    detect_cheating failing_detector demo_embedding demo_predict
                    canvas_rectangle demo_world
    = (Raise (ExternalError "detector unavailable"), w') /\
    pixels w' = pixels demo_world /\
    calls w' = calls demo_world ++ [Call_detect].
Proof.
  split; [reflexivity|].
  apply (detector_failure_propagates failing_detector demo_embedding
           demo_predict canvas_rectangle demo_world
           (ExternalError "detector unavailable")).
  reflexivity.
Defined.

Lemma wrong_keypoint_count_aborts_witness :
  demo_detector [cheater; stub; cheater] (pixels demo_world)
  = Ok ([cheater] ++ stub :: [cheater]) /\
  Forall (fun p => exists d, demo_decision p = Ok d) [cheater] /\
  List.length (keypoints stub) <> 17%nat /\
  exists new,
    demo_run [cheater; stub; cheater] demo_world
    = (Raise ValueError,
       mkWorld (fold_left (draw canvas_rectangle)
                          (filter demo_cheating [cheater])
                          (pixels demo_world))
               (calls demo_world ++ new)) /\
    filter is_rectangle new
    = map rectangle_call (filter demo_cheating [cheater]) /\
    filter is_classifier_work new
    = flat_map (classifier_calls demo_embedding) [cheater].
Proof.
  assert (H : Forall (fun p => exists d, demo_decision p = Ok d) [cheater]).
  { constructor; [exists CHEATING; reflexivity | constructor]. }
  assert (N : List.length (keypoints stub) <> 17%nat) by discriminate.
  split; [reflexivity|]. split; [exact H|]. split; [exact N|].
  apply (wrong_keypoint_count_aborts
           (demo_detector [cheater; stub; cheater])
           demo_embedding demo_predict canvas_rectangle demo_world
           [cheater] [cheater] stub).
  - reflexivity.
  - exact H.
  - exact N.
Defined.

Lemma flag_independent_of_person_order_witness :
  order_detector (pixels demo_world) = Ok [honest; cheater] /\
  order_detector (pixels marked_world) = Ok [cheater; honest] /\
  Permutation [honest; cheater] [cheater; honest] /\
  detect_cheating order_detector demo_embedding demo_predict
                  canvas_rectangle demo_world
  = (Ok (pixels (snd (detect_cheating order_detector demo_embedding
                        demo_predict canvas_rectangle demo_world)),
         true),
     snd (detect_cheating order_detector demo_embedding demo_predict
                          canvas_rectangle demo_world)) /\
  exists out2 w2',
    detect_cheating order_detector demo_embedding demo_predict
                    canvas_rectangle marked_world
    = (Ok out2, w2') /\
    snd out2 = true /\
    Permutation
      (filter is_rectangle
         (new_calls demo_world
            (snd (detect_cheating order_detector demo_embedding demo_predict
                                  canvas_rectangle demo_world))))
      (filter is_rectangle (new_calls marked_world w2')).
Proof.
  split; [reflexivity|]. split; [reflexivity|]. split; [apply perm_swap|].
  split; [reflexivity|].
  apply (flag_independent_of_person_order order_detector demo_embedding
           demo_predict canvas_rectangle demo_world marked_world
           (snd (detect_cheating order_detector demo_embedding demo_predict
                                 canvas_rectangle demo_world))
           [honest; cheater] [cheater; honest]
           (pixels (snd (detect_cheating order_detector demo_embedding
                           demo_predict canvas_rectangle demo_world)),
            true)).
  - reflexivity.
  - reflexivity.
  - apply perm_swap.
  - reflexivity.
Defined.

Lemma every_person_classified_once_witness :
  demo_detector [honest; cheater] (pixels demo_world)
  = Ok [honest; cheater] /\
  demo_run [honest; cheater] demo_world
  = (Ok (pixels (snd (demo_run [honest; cheater] demo_world)), true),
     snd (demo_run [honest; cheater] demo_world)) /\
  exists new,
    calls (snd (demo_run [honest; cheater] demo_world))
    = calls demo_world ++ Call_detect :: new /\
    ~ In Call_detect new /\
    filter is_classifier_work new
    = flat_map (classifier_calls demo_embedding) [honest; cheater] /\
    Forall (fun p => exists df embedding,
                keypoints_dataframe p = Ok df /\
                demo_embedding df = Ok embedding /\
                classifier_calls demo_embedding p
                = [Call_landmarks_to_embedding df; Call_predict embedding])
           [honest; cheater].
Proof.
  split; [reflexivity|]. split; [reflexivity|].
  apply (every_person_classified_once
           (demo_detector [honest; cheater])
           demo_embedding demo_predict canvas_rectangle demo_world
           (snd (demo_run [honest; cheater] demo_world))
           [honest; cheater]
           (pixels (snd (demo_run [honest; cheater] demo_world)), true)).
  - reflexivity.
  - reflexivity.
Defined.

(** ** The flag and the frame; the classifier's output *)

Lemma existsb_filter_nil {A : Type} (f : A -> bool) (l : list A) :
  existsb f l = true <-> filter f l <> [].
Proof.
  induction l as [|a l IH]; cbn [existsb filter].
  - split; [discriminate | congruence].
  - destruct (f a); cbn [orb]; [split; [discriminate | reflexivity]|exact IH].
Qed.

Lemma predicted_class_singleton (p0 : Q) :
  predicted_class [p0] = Raise IndexError.
Proof.
  unfold predicted_class. cbn [getitem nth_error np_amax fold_left rbind].
  now rewrite (proj2 (Qeq_bool_iff p0 p0) (Qeq_refl p0)).
Qed.

Lemma predicted_class_returns (p0 p1 : Q) (rest : list Q) :
  exists c, predicted_class (p0 :: p1 :: rest) = Ok c.
Proof.
  unfold predicted_class. cbn [getitem nth_error np_amax rbind].
  destruct (Qeq_bool p0 (fold_left Qmax (p1 :: rest) p0)); [|eauto].
  destruct (Qgeb p0 (10000 * p1)); eauto.
Qed.

Section CheatDetectionOutcome.

Context {Image : Type}.
Variable detector_detect : Image -> Result (list Person).
Variable landmarks_to_embedding : list Q -> Result (list Q).
Variable model_predict : list Q -> Result (list (list Q)).
Variable cv2_rectangle :
  Image -> Z * Z -> Z * Z -> Z * Z * Z -> Z -> Image.

Local Abbreviation run :=
  (detect_cheating detector_detect landmarks_to_embedding model_predict
                   cv2_rectangle).
Local Abbreviation body :=
  (process_person landmarks_to_embedding model_predict cv2_rectangle).

(** X20: in a run that returns, the flag is true exactly when at least
    one rectangle was drawn; with the flag false the returned frame and
    the buffer hold the pixels they held before the call. *)
Theorem flag_true_iff_something_drawn
    (w w' : World Image) (image : Image) (flag : bool) :
  run w = (Ok (image, flag), w') ->
  (flag = true <-> filter is_rectangle (new_calls w w') <> []) /\
  (flag = false -> image = pixels w /\ pixels w' = pixels w).
Proof.
  rewrite detect_cheating_run.
  destruct (detector_detect (pixels w)) as [persons|e]; [|discriminate].
  cbv zeta.
  destruct (loop_result landmarks_to_embedding model_predict persons false)
    as [flag'|e] eqn:E; [|discriminate].
  intros [= <- <- <-].
  apply loop_result_returns in E. destruct E as [HF ->]. cbn [orb pixels].
  rewrite new_calls_app. cbn [filter is_rectangle].
  rewrite (loop_calls_complete _ _ _ HF).
  rewrite (loop_pixels_complete _ _ _ _ _ HF).
  rewrite existsb_filter_nil. split.
  - split.
    + intros H Hm. apply H. now apply map_eq_nil in Hm.
    + intros H Hf. apply H. now rewrite Hf.
  - intros H.
    destruct (filter (is_cheating landmarks_to_embedding model_predict)
                     persons) as [|p l] eqn:F.
    + split; reflexivity.
    + exfalso.
      assert (T : existsb (is_cheating landmarks_to_embedding model_predict)
                          persons = true)
        by (apply existsb_filter_nil; rewrite F; discriminate).
      congruence.
Qed.

(** X17: what the loop body does with the classifier's answer depends on
    its shape: a batch that does not have exactly one row raises
    ValueError, a single row with fewer than two entries raises
    IndexError, and a single row with two or more entries gives a flag
    without an exception. *)
Theorem classifier_output_shapes
    (person : Person) (cd : bool) (w : World Image)
    (df embedding : list Q) (batch : list (list Q)) :
  keypoints_dataframe person = Ok df ->
  landmarks_to_embedding df = Ok embedding ->
  model_predict embedding = Ok batch ->
  match batch with
  | [row] =>
      match row with
      | [] | [_] => fst (body person cd w) = Raise IndexError
      | _ :: _ :: _ => exists flag, fst (body person cd w) = Ok flag
      end
  | _ => fst (body person cd w) = Raise ValueError
  end.
Proof.
  intros Hdf Hemb Hpred. rewrite process_person_run. cbn [fst].
  unfold body_result, person_class. rewrite Hdf. cbn [rbind].
  rewrite Hemb. cbn [rbind]. rewrite Hpred. cbn [rbind].
  destruct batch as [|row [|row' batch]]; [reflexivity| |reflexivity].
  cbn [np_squeeze0 rbind].
  destruct row as [|p0 [|p1 rest]].
  - reflexivity.
  - now rewrite predicted_class_singleton.
  - destruct (predicted_class_returns p0 p1 rest) as [c Hc].
    rewrite Hc. eauto.
Qed.

End CheatDetectionOutcome.

Lemma flag_true_iff_something_drawn_witness :
  demo_run [honest; cheater] demo_world
  = (Ok (pixels (snd (demo_run [honest; cheater] demo_world)), true),
     snd (demo_run [honest; cheater] demo_world)) /\
  ((true = true <->
    filter is_rectangle
      (new_calls demo_world (snd (demo_run [honest; cheater] demo_world)))
    <> []) /\
   (true = false ->
    pixels (snd (demo_run [honest; cheater] demo_world)) = pixels demo_world /\
    pixels (snd (demo_run [honest; cheater] demo_world)) = pixels demo_world)).
Proof.
  split; [reflexivity|].
  apply (flag_true_iff_something_drawn
           (demo_detector [honest; cheater])
           demo_embedding demo_predict canvas_rectangle demo_world
           (snd (demo_run [honest; cheater] demo_world))
           (pixels (snd (demo_run [honest; cheater] demo_world))) true).
  reflexivity.
Defined.

Lemma classifier_output_shapes_witness :
  keypoints_dataframe honest
  = Ok (flat_map keypoint_triple (keypoints honest)) /\
  demo_embedding (flat_map keypoint_triple (keypoints honest))
  = Ok (flat_map keypoint_triple (keypoints honest)) /\
  demo_predict (flat_map keypoint_triple (keypoints honest))
  = Ok [[6 # 10; 3 # 10; 1 # 10]]%Q /\
  exists flag,
    fst (process_person demo_embedding demo_predict canvas_rectangle
                        honest false demo_world) = Ok flag.
Proof.
  split; [reflexivity|]. split; [reflexivity|]. split; [reflexivity|].
  apply (classifier_output_shapes demo_embedding demo_predict
           canvas_rectangle honest false demo_world
           (flat_map keypoint_triple (keypoints honest))
           (flat_map keypoint_triple (keypoints honest))
           [[6 # 10; 3 # 10; 1 # 10]]%Q).
  - reflexivity.
  - reflexivity.
  - reflexivity.
Defined.
